(** * useFetchOnScroll: a shallow embedding of [src/useFetchOnScroll.ts]

    The hook resolves the index of the list item that arms the next fetch,
    hands out two ref callbacks that manage [IntersectionObserver] instances,
    and shares one intersection handler between them.

    Conventions of the embedding.
    - A JavaScript [number] is an exact rational, [NaN] or a signed infinity.
      Rounding of IEEE doubles is outside the model: item counts and indices
      are far below 2^53, where the arithmetic used here is exact.  Negative
      zero is identified with zero (the program never divides).
    - A string is a sequence of code units below 256.
    - Mutable cells ([useRef]), the observer objects and the calls of the
      opaque [fetchNext] collaborator live in one [World]; effectful code is
      written in a state monad over it.
    - Function objects have an identity.  A closure is the props of the render
      whose scope it closes over, with the number that identifies it;
      [useCallback] keeps the closure of an earlier render while its
      dependencies are unchanged. *)

From Stdlib Require Import ZArith QArith Qround String Ascii List Bool Lia.
From Stdlib Require Import DecimalString DecimalNat DecimalFacts.
From stdpp Require Import base decidable option list.

Local Open Scope Z_scope.

(** ** The JavaScript runtime pieces the hook relies on *)

Module JS.

Inductive number : Type :=
  | NaN
  | Infinity (negative : bool)
  | Fin (q : Q).

Definition Int (z : Z) : number := Fin (inject_Z z).

(** [a === b] on numbers. *)
Definition strict_eq (a b : number) : bool :=
  match a, b with
  | Fin p, Fin q => Qeq_bool p q
  | Infinity s, Infinity t => Bool.eqb s t
  | _, _ => false
  end.

(** [a === b] where [a] is [number | null]: [null] equals no number. *)
Definition strict_eq_nullable (a : option number) (b : number) : bool :=
  match a with
  | Some x => strict_eq x b
  | None => false
  end.

(** [Object.is(a, b)] on numbers, by which React compares dependencies:
    unlike [===] it holds of [NaN] and [NaN]. *)
Definition same_value (a b : number) : bool :=
  match a, b with
  | NaN, NaN => true
  | _, _ => strict_eq a b
  end.

(** ToBoolean on a number: [0] and [NaN] are falsy. *)
Definition truthy (a : number) : bool :=
  match a with
  | NaN => false
  | Infinity _ => true
  | Fin q => negb (Qeq_bool q 0)
  end.

(** ToBoolean on [number | undefined]. *)
Definition truthy_opt (a : option number) : bool :=
  match a with
  | Some x => truthy x
  | None => false
  end.

(** ToBoolean on a string: only the empty string is falsy. *)
Definition truthy_string (s : string) : bool :=
  match s with
  | EmptyString => false
  | String _ _ => true
  end.

Definition Qneg_b (q : Q) : bool := Z.ltb (Qnum q) 0.

(** [a - b]. *)
Definition sub (a b : number) : number :=
  match a, b with
  | NaN, _ | _, NaN => NaN
  | Infinity s, Infinity t => if Bool.eqb s t then NaN else Infinity s
  | Infinity s, Fin _ => Infinity s
  | Fin _, Infinity t => Infinity (negb t)
  | Fin p, Fin q => Fin (p - q)
  end.

(** [a * b]. *)
Definition mul (a b : number) : number :=
  match a, b with
  | NaN, _ | _, NaN => NaN
  | Infinity s, Infinity t => Infinity (xorb s t)
  | Infinity s, Fin q | Fin q, Infinity s =>
      if Qeq_bool q 0 then NaN else Infinity (xorb s (Qneg_b q))
  | Fin p, Fin q => Fin (p * q)
  end.

(** [Math.floor]. *)
Definition Math_floor (a : number) : number :=
  match a with
  | Fin q => Int (Qfloor q)
  | other => other
  end.

(** *** [parseInt(string)] with the radix left out (ECMA-262, 19.2.5) *)

Definition code (c : ascii) : Z := Z.of_N (N_of_ascii c).

(** White space and line terminators below 256. *)
Definition is_white_space (c : ascii) : bool :=
  let n := code c in
  ((9 <=? n) && (n <=? 13)) || (n =? 32) || (n =? 160).

Fixpoint trim_start (s : string) : string :=
  match s with
  | String c rest => if is_white_space c then trim_start rest else s
  | EmptyString => EmptyString
  end.

(** The value of [c] as a digit of the given radix, if it is one. *)
Definition digit_value (radix : Z) (c : ascii) : option Z :=
  let n := code c in
  let v :=
    if (48 <=? n) && (n <=? 57) then Some (n - 48)
    else if (97 <=? n) && (n <=? 122) then Some (n - 87)
    else if (65 <=? n) && (n <=? 90) then Some (n - 55)
    else None in
  match v with
  | Some d => if d <? radix then Some d else None
  | None => None
  end.

(** The longest prefix of radix digits, as a mathematical integer;
    [acc] is [None] as long as no digit was read. *)
Fixpoint parse_digits (radix : Z) (s : string) (acc : option Z) : option Z :=
  match s with
  | String c rest =>
      match digit_value radix c with
      | Some d =>
          parse_digits radix rest
            (Some (match acc with Some a => a * radix + d | None => d end))
      | None => acc
      end
  | EmptyString => acc
  end.

Definition parseInt (input : string) : number :=
  let s := trim_start input in
  let '(sign, s) :=
    match s with
    | String "-" rest => (-1, rest)
    | String "+" rest => (1, rest)
    | _ => (1, s)
    end in
  let '(radix, s) :=
    match s with
    | String "0" (String "x" rest) => (16, rest)
    | String "0" (String "X" rest) => (16, rest)
    | _ => (10, s)
    end in
  match parse_digits radix s None with
  | Some m => Int (sign * m)
  | None => NaN
  end.

(** ToString on [string | null], as [parseInt] applies it to its argument. *)
Definition ToString (v : option string) : string :=
  match v with
  | Some s => s
  | None => "null"
  end.

End JS.

Import JS.

(** ** The DOM side: elements and intersection entries *)

Record Element : Type := {
  node_id : nat;
  attributes : list (string * string);
}.

Fixpoint lookup_attribute (name : string) (l : list (string * string))
  : option string :=
  match l with
  | (k, v) :: rest => if String.eqb k name then Some v else lookup_attribute name rest
  | [] => None
  end.

(** [el.getAttribute(name)]: [null] when the attribute is missing. *)
Definition getAttribute (el : Element) (name : string) : option string :=
  lookup_attribute name (attributes el).

Record IntersectionObserverEntry : Type := {
  isIntersecting : bool;
  target : Element;
}.

(** Object identity of DOM nodes. *)
Definition same_node (a b : Element) : bool := Nat.eqb (node_id a) (node_id b).

(** ** Configuration of the hook *)

Inductive TriggerPoint : Type := TP50 | TP75 | TP100.

(** The string literal a [TriggerPoint] is in the source. *)
Definition TriggerPoint_literal (t : TriggerPoint) : string :=
  match t with
  | TP50 => "50%"
  | TP75 => "75%"
  | TP100 => "100%"
  end.

(** [FetchOnScrollProps].  Optional fields are [option]s; of the opaque
    [fetchNext] function only its identity matters here. *)
Record FetchOnScrollProps : Type := {
  fetchNext : nat;
  fetchMore : option bool;
  numberOfItems : number;
  threshold : option number;
  rootMargin : option string;
  triggerPoint : option TriggerPoint;
  triggerIndex : option number;
}.

(** The two destructuring defaults of the parameter list. *)
Definition fetchMore_or_default (p : FetchOnScrollProps) : bool :=
  default true (fetchMore p).

Definition triggerPoint_or_default (p : FetchOnScrollProps) : TriggerPoint :=
  default TP100 (triggerPoint p).

(** ** Trigger-index resolution *)

Definition getTriggerPointValue (triggerPoint : TriggerPoint)
  (numberOfItems : number) : number :=
  match triggerPoint with
  | TP50 => Math_floor (mul numberOfItems (Fin (1 # 2)))
  | TP75 => Math_floor (mul numberOfItems (Fin (3 # 4)))
  | TP100 => sub numberOfItems (Int 1)
  end.

Definition fallBackRefIndex (p : FetchOnScrollProps) : number :=
  sub (numberOfItems p) (Int 1).

(** The variable [itemRefIndex] of a render with props [p].  [useMemo]
    depends on both arguments of the call it wraps, so its value is the value
    of that call; the [if (triggerIndex)] override follows. *)
Definition itemRefIndex (p : FetchOnScrollProps) : number :=
  let itemRefIndex := getTriggerPointValue (triggerPoint_or_default p) (numberOfItems p) in
  match triggerIndex p with
  | Some t => if truthy t then Math_floor t else itemRefIndex
  | None => itemRefIndex
  end.

(** ** The two [useRef] cells holding observers *)

Inductive RefObject : Type :=
  | ref_Item       (* the cell [ItemObserver] is initialised with *)
  | ref_fallback.  (* [fallbackObserver] *)

#[global] Instance RefObject_eq_dec : EqDecision RefObject.
Proof. solve_decision. Defined.

(** [triggerIndex === fallBackRefIndex], with [triggerIndex] possibly
    [undefined]. *)
Definition triggerIndex_is_fallback (p : FetchOnScrollProps) : bool :=
  strict_eq_nullable (triggerIndex p) (fallBackRefIndex p).

(** The cell the variable [ItemObserver] denotes after the aliasing test. *)
Definition ItemObserver (p : FetchOnScrollProps) : RefObject :=
  let triggerPoint := triggerPoint_or_default p in
  if (match triggerPoint with TP100 => true | _ => false end)
     || triggerIndex_is_fallback p
     || (negb (truthy_string (TriggerPoint_literal triggerPoint))
         && negb (truthy_opt (triggerIndex p)))
  then ref_fallback
  else ref_Item.

(** ** Closures *)

(** A [fetchOnScroll] function object: its identity and the props of the
    render it was created in (it reads [fetchNext], [fetchMore],
    [itemRefIndex] and [fallBackRefIndex] from that scope). *)
Record Handler : Type := {
  handler_id : nat;
  handler_scope : FetchOnScrollProps;
}.

(** A ref callback: its identity, the props of the render it was created in
    (it reads [threshold] and [rootMargin] from that scope), and the two
    arguments of [useIntersectionObserver] it closes over. *)
Record RefCallback : Type := {
  callback_id : nat;
  callback_scope : FetchOnScrollProps;
  captured_observerRef : RefObject;
  captured_iOCallback : Handler;
}.

(** ** The world of one hook instance *)

(** An observer object: the callback and options it was constructed with and
    the elements it watches. *)
Record IntersectionObserver : Type := {
  io_callback : Handler;
  io_threshold : option number;
  io_rootMargin : option string;
  io_targets : list Element;
}.

Inductive Event : Type :=
  | EvFetchNext (f : nat)
  | EvConstruct (o : nat) (threshold : option number) (rootMargin : option string)
  | EvObserve (o : nat) (node : Element)
  | EvDisconnect (o : nat).

Record World : Type := {
  ItemObserver_current : option nat;
  fallbackObserver_current : option nat;
  lastItemIndex_current : option number;
  observers : list IntersectionObserver;  (* by creation order *)
  trace : list Event;                     (* calls of collaborators, oldest first *)
}.

Definition initial_world : World := {|
  ItemObserver_current := None;
  fallbackObserver_current := None;
  lastItemIndex_current := None;
  observers := [];
  trace := [];
|}.

Definition current (r : RefObject) (w : World) : option nat :=
  match r with
  | ref_Item => ItemObserver_current w
  | ref_fallback => fallbackObserver_current w
  end.

Definition is_fetchNext (e : Event) : bool :=
  match e with EvFetchNext _ => true | _ => false end.

(** How often a [fetchNext] has been called so far. *)
Definition fetchNext_calls (w : World) : nat :=
  length (filter (fun e => is_fetchNext e = true) (trace w)).

(** *** State monad over the world *)

Definition M (A : Type) : Type := World -> A * World.

#[global] Instance M_ret : MRet M := fun A a w => (a, w).

#[global] Instance M_bind : MBind M := fun A B k m w =>
  let '(a, w') := m w in k a w'.

Definition emit (e : Event) : M unit := fun w =>
  (tt, {| ItemObserver_current := ItemObserver_current w;
          fallbackObserver_current := fallbackObserver_current w;
          lastItemIndex_current := lastItemIndex_current w;
          observers := observers w;
          trace := trace w ++ [e] |}).

(** [f()] for the collaborator [f]. *)
Definition invoke (f : nat) : M unit := emit (EvFetchNext f).

(** [lastItemIndex.current] *)
Definition get_lastItemIndex : M (option number) := fun w =>
  (lastItemIndex_current w, w).

(** [lastItemIndex.current = v] *)
Definition set_lastItemIndex (v : number) : M unit := fun w =>
  (tt, {| ItemObserver_current := ItemObserver_current w;
          fallbackObserver_current := fallbackObserver_current w;
          lastItemIndex_current := Some v;
          observers := observers w;
          trace := trace w |}).

(** [observerRef.current] *)
Definition get_current (r : RefObject) : M (option nat) := fun w => (current r w, w).

(** [observerRef.current = o] *)
Definition set_current (r : RefObject) (o : nat) : M unit := fun w =>
  (tt, {| ItemObserver_current :=
            match r with ref_Item => Some o | ref_fallback => ItemObserver_current w end;
          fallbackObserver_current :=
            match r with ref_fallback => Some o | ref_Item => fallbackObserver_current w end;
          lastItemIndex_current := lastItemIndex_current w;
          observers := observers w;
          trace := trace w |}).

Definition set_observers (f : list IntersectionObserver -> list IntersectionObserver)
  : M unit := fun w =>
  (tt, {| ItemObserver_current := ItemObserver_current w;
          fallbackObserver_current := fallbackObserver_current w;
          lastItemIndex_current := lastItemIndex_current w;
          observers := f (observers w);
          trace := trace w |}).

Definition with_targets (f : list Element -> list Element)
  (ob : IntersectionObserver) : IntersectionObserver :=
  {| io_callback := io_callback ob;
     io_threshold := io_threshold ob;
     io_rootMargin := io_rootMargin ob;
     io_targets := f (io_targets ob) |}.

(** [new IntersectionObserver(callback, {threshold, rootMargin})]: the new
    object is the next one in creation order. *)
Definition new_IntersectionObserver (callback : Handler)
  (threshold : option number) (rootMargin : option string) : M nat := fun w =>
  let o := length (observers w) in
  (set_observers (fun l => l ++ [{| io_callback := callback;
                                    io_threshold := threshold;
                                    io_rootMargin := rootMargin;
                                    io_targets := [] |}]) ;;
   emit (EvConstruct o threshold rootMargin) ;;
   mret o) w.

(** [o.observe(node)]: a target already watched is not added twice. *)
Definition observe (o : nat) (node : Element) : M unit :=
  set_observers (alter (with_targets (fun ts =>
    if existsb (same_node node) ts then ts else ts ++ [node])) o) ;;
  emit (EvObserve o node).

(** [o.disconnect()]: the observer stops watching all of its targets. *)
Definition disconnect (o : nat) : M unit :=
  set_observers (alter (with_targets (fun _ => [])) o) ;;
  emit (EvDisconnect o).

(** ** The intersection handler *)

(** The index the entry's element carries in [data-id]. *)
Definition entryId (e : IntersectionObserverEntry) : number :=
  parseInt (ToString (getAttribute (target e) "data-id")).

(** The body of [fetchOnScroll], in the scope of a render with props [p]. *)
Definition fetchOnScroll (p : FetchOnScrollProps)
  (entries : list IntersectionObserverEntry) : M unit :=
  match entries with
  | [] => mret tt
  | e :: _ =>
      if isIntersecting e && fetchMore_or_default p then
        let entryId := entryId e in
        (if strict_eq entryId (itemRefIndex p) then
           set_lastItemIndex entryId ;;
           invoke (fetchNext p)
         else mret tt) ;;
        last ← get_lastItemIndex ;
        if strict_eq entryId (fallBackRefIndex p)
           && negb (strict_eq_nullable last (itemRefIndex p))
        then invoke (fetchNext p)
        else mret tt
      else mret tt
  end.

(** ** The ref callbacks *)

(** The cleanup closure a ref callback returns: it remembers its cell. *)
Definition Cleanup : Type := RefObject.

Definition run_cleanup (observerRef : Cleanup) : M unit :=
  cur ← get_current observerRef ;
  match cur with
  | Some o => disconnect o
  | None => mret tt
  end.

(** The body of the function [useIntersectionObserver] wraps in
    [useCallback], run for the closure [h] on [node]. *)
Definition ref_callback (h : RefCallback) (node : option Element)
  : M (option Cleanup) :=
  let observerRef := captured_observerRef h in
  match node with
  | None => mret None
  | Some node =>
      cur ← get_current observerRef ;
      (match cur with
       | Some o => disconnect o
       | None => mret tt
       end) ;;
      observer ← new_IntersectionObserver (captured_iOCallback h)
                   (threshold (callback_scope h)) (rootMargin (callback_scope h)) ;
      set_current observerRef observer ;;
      observe observer node ;;
      mret (Some observerRef)
  end.

(** ** Rendering: the hook and its memoised closures *)

(** [useCallback(callback, deps)]: the closure kept from the last render is
    returned again while every dependency is unchanged. *)
Definition useCallback {F : Type} (unchanged : F -> bool) (memo : option F)
  (callback : F) : F :=
  match memo with
  | Some kept => if unchanged kept then kept else callback
  | None => callback
  end.

(** The dependency list [[fetchNext, fetchMore, itemRefIndex, fallBackRefIndex]]
    of [fetchOnScroll], compared between two scopes. *)
Definition fetchOnScroll_deps_unchanged (p q : FetchOnScrollProps) : bool :=
  Nat.eqb (fetchNext p) (fetchNext q)
  && Bool.eqb (fetchMore_or_default p) (fetchMore_or_default q)
  && same_value (itemRefIndex p) (itemRefIndex q)
  && same_value (fallBackRefIndex p) (fallBackRefIndex q).

(** [useIntersectionObserver(observerRef, iOCallback)], called in a render
    with props [p]; the dependency list is [[observerRef, iOCallback]]. *)
Definition useIntersectionObserver (p : FetchOnScrollProps) (id : nat)
  (memo : option RefCallback) (observerRef : RefObject) (iOCallback : Handler)
  : RefCallback :=
  useCallback
    (fun kept =>
       bool_decide (captured_observerRef kept = observerRef)
       && Nat.eqb (handler_id (captured_iOCallback kept)) (handler_id iOCallback))
    memo
    {| callback_id := id; callback_scope := p;
       captured_observerRef := observerRef; captured_iOCallback := iOCallback |}.

(** What React keeps for the instance between renders. *)
Record HookState : Type := {
  closures : nat;   (* function objects created so far *)
  fetchOnScroll_memo : option Handler;
  itemRef_memo : option RefCallback;
  fallbackRef_memo : option RefCallback;
}.

Definition initial_hook : HookState := {|
  closures := 0;
  fetchOnScroll_memo := None;
  itemRef_memo := None;
  fallbackRef_memo := None;
|}.

(** The record the hook returns. *)
Module Returned.
Record t : Type := {
  itemRef : RefCallback;
  fallbackRef : RefCallback;
  itemRefIndex : number;
  fallBackRefIndex : number;
}.
End Returned.

(** One render of the hook with props [p]. *)
Definition useFetchOnScroll (p : FetchOnScrollProps) (s : HookState)
  : Returned.t * HookState :=
  let n := closures s in
  let fetchOnScroll :=
    useCallback (fun kept => fetchOnScroll_deps_unchanged (handler_scope kept) p)
      (fetchOnScroll_memo s) {| handler_id := n; handler_scope := p |} in
  let itemRef :=
    useIntersectionObserver p (n + 1) (itemRef_memo s) (ItemObserver p) fetchOnScroll in
  let fallbackRef :=
    useIntersectionObserver p (n + 2) (fallbackRef_memo s) ref_fallback fetchOnScroll in
  ({| Returned.itemRef := itemRef;
      Returned.fallbackRef := fallbackRef;
      Returned.itemRefIndex := itemRefIndex p;
      Returned.fallBackRefIndex := fallBackRefIndex p |},
   {| closures := n + 3;
      fetchOnScroll_memo := Some fetchOnScroll;
      itemRef_memo := Some itemRef;
      fallbackRef_memo := Some fallbackRef |}).

(** The state of the instance after rendering with each of [ps] in turn. *)
Definition renders (ps : list FetchOnScrollProps) : HookState :=
  foldl (fun s p => snd (useFetchOnScroll p s)) initial_hook ps.

(** What the render with props [p] returns after the renders [ps]. *)
Definition rendered (ps : list FetchOnScrollProps) (p : FetchOnScrollProps)
  : Returned.t :=
  fst (useFetchOnScroll p (renders ps)).

(** ** The life of a mounted hook *)

(** The runtime notifying observer [o]: it reports only targets the observer
    watches, and calls back only with a batch that is not empty. *)
Definition watches (ob : IntersectionObserver) (e : IntersectionObserverEntry) : bool :=
  existsb (same_node (target e)) (io_targets ob).

Definition deliver (o : nat) (entries : list IntersectionObserverEntry) : M unit :=
  fun w =>
    match observers w !! o with
    | Some ob =>
        match List.filter (watches ob) entries with
        | [] => (tt, w)
        | batch => fetchOnScroll (handler_scope (io_callback ob)) batch w
        end
    | None => (tt, w)
    end.

(** What can happen: a ref callback is called (with an element, or with
    [null]), a cleanup closure is run, or the runtime notifies an observer. *)
Inductive Call : Type :=
  | CallRef (h : RefCallback) (node : option Element)
  | CallCleanup (observerRef : Cleanup)
  | Notify (o : nat) (entries : list IntersectionObserverEntry).

Definition call (c : Call) : M unit :=
  match c with
  | CallRef h node => ref_callback h node ;; mret tt
  | CallCleanup observerRef => run_cleanup observerRef
  | Notify o entries => deliver o entries
  end.

Fixpoint run (cs : list Call) : M unit :=
  match cs with
  | [] => mret tt
  | c :: cs => call c ;; run cs
  end.

(** ** Notions the statements use *)

(** The table of trigger points as the specification words it, over exact
    rationals. *)
Definition table_index (tp : TriggerPoint) (n : Z) : Z :=
  match tp with
  | TP50 => Qfloor ((1 # 2) * inject_Z n)
  | TP75 => Qfloor ((3 # 4) * inject_Z n)
  | TP100 => n - 1
  end.





(** The world after the primary branch fired for index [v]. *)
Definition primary_fired (f : nat) (v : number) (w : World) : World :=
  {| ItemObserver_current := ItemObserver_current w;
     fallbackObserver_current := fallbackObserver_current w;
     lastItemIndex_current := Some v;
     observers := observers w;
     trace := trace w ++ [EvFetchNext f] |}.

(** The world after the fallback branch alone fired. *)
Definition fallback_fired (f : nat) (w : World) : World :=
  {| ItemObserver_current := ItemObserver_current w;
     fallbackObserver_current := fallbackObserver_current w;
     lastItemIndex_current := lastItemIndex_current w;
     observers := observers w;
     trace := trace w ++ [EvFetchNext f] |}.

(** The observers of [l] after the one in [cur], if any, was disconnected. *)
Definition released (cur : option nat) (l : list IntersectionObserver)
  : list IntersectionObserver :=
  match cur with
  | Some o => alter (with_targets (fun _ => [])) o l
  | None => l
  end.

Definition release_events (cur : option nat) : list Event :=
  match cur with
  | Some o => [EvDisconnect o]
  | None => []
  end.

(** Every cell points to an existing observer, and an observer that watches
    anything watches exactly one element and is the current observer of a
    cell: each of the two cells thus has at most one active observer. *)
Record well_formed (w : World) : Prop := {
  wf_current : forall r o, current r w = Some o -> (o < length (observers w))%nat;
  wf_active : forall o ob,
    observers w !! o = Some ob -> io_targets ob <> [] ->
    (exists node, io_targets ob = [node]) /\ (exists r, current r w = Some o);
}.

(** *** Small configurations used in examples *)

Definition props_of (n : Z) (tp : option TriggerPoint) (ti : option number)
  : FetchOnScrollProps :=
  {| fetchNext := 0; fetchMore := Some true; numberOfItems := Int n;
     threshold := None; rootMargin := None;
     triggerPoint := tp; triggerIndex := ti |}.

Definition with_options (th : option number) (rm : option string)
  (p : FetchOnScrollProps) : FetchOnScrollProps :=
  {| fetchNext := fetchNext p; fetchMore := fetchMore p;
     numberOfItems := numberOfItems p; threshold := th; rootMargin := rm;
     triggerPoint := triggerPoint p; triggerIndex := triggerIndex p |}.

Definition element_with_id (n : nat) (id : string) : Element :=
  {| node_id := n; attributes := [("data-id"%string, id)] |}.

Definition entry_of (n : nat) (id : string) (visible : bool)
  : IntersectionObserverEntry :=
  {| isIntersecting := visible; target := element_with_id n id |}.

(** ** Notions used beyond the claims *)

(** Whether an invocation of the handler calls [fetchNext]. *)
Definition fires (p : FetchOnScrollProps)
  (entries : list IntersectionObserverEntry) (w : World) : bool :=
  match entries with
  | [] => false
  | e :: _ =>
      isIntersecting e && fetchMore_or_default p
      && (strict_eq (entryId e) (itemRefIndex p)
          || (strict_eq (entryId e) (fallBackRefIndex p)
              && negb (strict_eq_nullable (lastItemIndex_current w) (itemRefIndex p))))
  end.

(** Whether a batch takes the primary branch. *)
Definition primary_match (p : FetchOnScrollProps)
  (entries : list IntersectionObserverEntry) : bool :=
  match entries with
  | [] => false
  | e :: _ =>
      isIntersecting e && fetchMore_or_default p
      && strict_eq (entryId e) (itemRefIndex p)
  end.

(** The same handler closure called with one batch after the other. *)
Fixpoint handle_batches (p : FetchOnScrollProps)
  (batches : list (list IntersectionObserverEntry)) : M unit :=
  match batches with
  | [] => mret tt
  | entries :: batches => fetchOnScroll p entries ;; handle_batches p batches
  end.

(** An observer that watches something. *)
Definition watching (ob : IntersectionObserver) : bool :=
  match io_targets ob with
  | [] => false
  | _ :: _ => true
  end.

(** The observers, by creation number, that watch something. *)
Definition active_observers (w : World) : list nat :=
  filter (fun o => watching <$> (observers w !! o) = Some true)
    (seq 0 (length (observers w))).

(** The events one step of the hook's code adds to the trace: a call of
    [fetchNext], a [disconnect], or a construction directly followed by
    [observe] on the observer just constructed. *)
Definition chunk_ok (c : list Event) : bool :=
  match c with
  | [EvFetchNext _] => true
  | [EvDisconnect _] => true
  | [EvConstruct o _ _; EvObserve o' _] => Nat.eqb o o'
  | _ => false
  end.

(** The observers constructed in a trace, in order. *)
Definition constructed (t : list Event) : list nat :=
  omap (fun e => match e with EvConstruct o _ _ => Some o | _ => None end) t.

(** The observers disconnected in a trace, in order. *)
Definition disconnected (t : list Event) : list nat :=
  omap (fun e => match e with EvDisconnect o => Some o | _ => None end) t.

(** Calls that release and attach nothing: a ref callback called with
    [null], and a notification. *)
Definition quiet (c : Call) : bool :=
  match c with
  | CallRef _ None => true
  | Notify _ _ => true
  | _ => false
  end.

(** Two observers that differ at most in what they watch. *)
Definition same_options (a b : IntersectionObserver) : Prop :=
  io_callback a = io_callback b
  /\ io_threshold a = io_threshold b
  /\ io_rootMargin a = io_rootMargin b.

(** What holds of the state React keeps after any number of renders: the
    kept closures were created earlier, and the kept ref callbacks close over
    the kept handler. *)
Record hook_ok (s : HookState) : Prop := {
  ok_handler : forall hm, fetchOnScroll_memo s = Some hm ->
    (handler_id hm < closures s)%nat;
  ok_itemRef : forall h, itemRef_memo s = Some h ->
    fetchOnScroll_memo s = Some (captured_iOCallback h)
    /\ (callback_id h < closures s)%nat;
  ok_fallbackRef : forall h, fallbackRef_memo s = Some h ->
    fetchOnScroll_memo s = Some (captured_iOCallback h)
    /\ (callback_id h < closures s)%nat;
}.


(** ** The runtime pieces on examples *)

Example parseInt_9 : parseInt "9" = Int 9.
Proof. reflexivity. Qed.

Example parseInt_padded : parseInt "  -42px" = Int (-42).
Proof. reflexivity. Qed.

Example parseInt_hex : parseInt "0x1f" = Int 31.
Proof. reflexivity. Qed.

Example parseInt_null : parseInt (ToString None) = NaN.
Proof. reflexivity. Qed.

Example parseInt_empty : parseInt "" = NaN.
Proof. reflexivity. Qed.

(** ** Arithmetic of the number model *)

Lemma strict_eq_Int (a b : Z) : strict_eq (Int a) (Int b) = (a =? b).
Proof.
  unfold strict_eq, Int, Qeq_bool, inject_Z; simpl.
  rewrite !Z.mul_1_r; reflexivity.
Qed.


Lemma sub_Int (a b : Z) : sub (Int a) (Int b) = Int (a - b).
Proof.
  unfold sub, Int, inject_Z, Qminus, Qplus, Qopp; simpl.
  do 2 f_equal; lia.
Qed.

Lemma Math_floor_Int (a : Z) : Math_floor (Int a) = Int a.
Proof.
  unfold Math_floor, Int, inject_Z, Qfloor.
  rewrite Z.div_1_r; reflexivity.
Qed.

Lemma floor_scaled (n : Z) (a : Z) (b : positive) :
  Math_floor (mul (Int n) (Fin (a # b))) = Int (n * a / Zpos b).
Proof. reflexivity. Qed.

Lemma Qfloor_scaled (n : Z) (a : Z) (b : positive) :
  Qfloor ((a # b) * inject_Z n) = n * a / Zpos b.
Proof.
  unfold Qfloor, Qmult, inject_Z; simpl.
  rewrite Pos.mul_1_r, (Z.mul_comm a n); reflexivity.
Qed.

Lemma fallBackRefIndex_Int (p : FetchOnScrollProps) (n : Z) :
  numberOfItems p = Int n -> fallBackRefIndex p = Int (n - 1).
Proof. unfold fallBackRefIndex; intros ->; apply sub_Int. Qed.

(** ** Trigger-index resolution: what the hook returns *)

Lemma returned_indices (p : FetchOnScrollProps) (s : HookState) :
  Returned.itemRefIndex (fst (useFetchOnScroll p s)) = itemRefIndex p
  /\ Returned.fallBackRefIndex (fst (useFetchOnScroll p s)) = fallBackRefIndex p.
Proof. split; reflexivity. Qed.

Lemma getTriggerPointValue_Int (tp : TriggerPoint) (n : Z) :
  getTriggerPointValue tp (Int n) = Int (table_index tp n).
Proof.
  destruct tp; unfold getTriggerPointValue, table_index.
  - rewrite floor_scaled, Qfloor_scaled; reflexivity.
  - rewrite floor_scaled, Qfloor_scaled; reflexivity.
  - apply sub_Int.
Qed.

Lemma itemRefIndex_falsy (p : FetchOnScrollProps) :
  truthy_opt (triggerIndex p) = false ->
  itemRefIndex p = getTriggerPointValue (triggerPoint_or_default p) (numberOfItems p).
Proof.
  unfold itemRefIndex, truthy_opt.
  destruct (triggerIndex p) as [t|]; [intros ->|]; reflexivity.
Qed.

Lemma itemRefIndex_truthy (p : FetchOnScrollProps) (t : number) :
  triggerIndex p = Some t -> truthy t = true -> itemRefIndex p = Math_floor t.
Proof. intros Ht Htruthy; unfold itemRefIndex; rewrite Ht, Htruthy; reflexivity. Qed.





(** C4: a truthy [triggerIndex] makes the returned [itemRefIndex] its floor,
    whatever [triggerPoint] and [numberOfItems] are (an integer index is
    returned as it is, in range or not); an absent or zero [triggerIndex]
    leaves the [triggerPoint] resolution in place. *)
Theorem itemRefIndex_triggerIndex_override (p : FetchOnScrollProps)
  (s : HookState) :
  let returned := Returned.itemRefIndex (fst (useFetchOnScroll p s)) in
  (forall t, triggerIndex p = Some t -> truthy t = true ->
             returned = Math_floor t)
  /\ (forall k, k <> 0 -> triggerIndex p = Some (Int k) -> returned = Int k)
  /\ (triggerIndex p = None \/ triggerIndex p = Some (Int 0) ->
      returned = getTriggerPointValue (triggerPoint_or_default p) (numberOfItems p)).
Proof.
  intros returned; subst returned; rewrite (proj1 (returned_indices p s)).
  split; [|split].
  - apply itemRefIndex_truthy.
  - intros k Hk Ht.
    rewrite (itemRefIndex_truthy p (Int k) Ht); [apply Math_floor_Int|].
    change (negb (strict_eq (Int k) (Int 0)) = true).
    rewrite strict_eq_Int; destruct (Z.eqb_spec k 0); [contradiction|reflexivity].
  - intros [H|H]; apply itemRefIndex_falsy; rewrite H; reflexivity.
Qed.

Lemma itemRefIndex_triggerIndex_override_witness :
  Returned.itemRefIndex
    (rendered [] (props_of 10 (Some TP50) (Some (Fin (7 # 2))))) = Int 3
  /\ Returned.itemRefIndex
       (rendered [] (props_of 10 (Some TP50) (Some (Int 15)))) = Int 15
  /\ Returned.itemRefIndex
       (rendered [] (props_of 10 (Some TP50) (Some (Int 0)))) = Int 5.
Proof.
  split; [|split].
  - exact (proj1 (itemRefIndex_triggerIndex_override
             (props_of 10 (Some TP50) (Some (Fin (7 # 2)))) initial_hook)
             _ eq_refl eq_refl).
  - refine (proj1 (proj2 (itemRefIndex_triggerIndex_override
             (props_of 10 (Some TP50) (Some (Int 15))) initial_hook)) 15 _ eq_refl).
    discriminate.
  - exact (proj2 (proj2 (itemRefIndex_triggerIndex_override
             (props_of 10 (Some TP50) (Some (Int 0))) initial_hook))
             (or_intror eq_refl)).
Defined.




(** ** The intersection handler: what one invocation does *)

Lemma fetchOnScroll_nil (p : FetchOnScrollProps) (w : World) :
  fetchOnScroll p [] w = (tt, w).
Proof. reflexivity. Qed.

(** A batch is handled through its first entry alone. *)
Lemma fetchOnScroll_cons (p : FetchOnScrollProps) (e : IntersectionObserverEntry)
  (rest : list IntersectionObserverEntry) (w : World) :
  fetchOnScroll p (e :: rest) w =
  (tt,
   if isIntersecting e && fetchMore_or_default p then
     if strict_eq (entryId e) (itemRefIndex p)
     then primary_fired (fetchNext p) (entryId e) w
     else if strict_eq (entryId e) (fallBackRefIndex p)
             && negb (strict_eq_nullable (lastItemIndex_current w) (itemRefIndex p))
          then fallback_fired (fetchNext p) w
          else w
   else w).
Proof.
  unfold fetchOnScroll.
  destruct (isIntersecting e && fetchMore_or_default p); [|reflexivity].
  destruct (strict_eq (entryId e) (itemRefIndex p)) eqn:Hitem.
  - unfold mbind, M_bind, set_lastItemIndex, get_lastItemIndex, invoke, emit; simpl.
    rewrite Hitem, andb_false_r; reflexivity.
  - unfold mbind, M_bind, mret, M_ret, get_lastItemIndex; simpl.
    destruct (strict_eq (entryId e) (fallBackRefIndex p)
              && negb (strict_eq_nullable (lastItemIndex_current w) (itemRefIndex p)));
      reflexivity.
Qed.

Lemma fetchNext_calls_snoc (w w' : World) (f : nat) :
  trace w' = trace w ++ [EvFetchNext f] ->
  fetchNext_calls w' = S (fetchNext_calls w).
Proof.
  unfold fetchNext_calls; intros ->.
  rewrite filter_app, length_app; simpl; lia.
Qed.

Lemma fallback_fires_once (p : FetchOnScrollProps)
  (e : IntersectionObserverEntry) (rest : list IntersectionObserverEntry)
  (w : World) :
  isIntersecting e = true ->
  fetchMore_or_default p = true ->
  strict_eq (entryId e) (fallBackRefIndex p) = true ->
  strict_eq_nullable (lastItemIndex_current w) (itemRefIndex p) = false ->
  trace (snd (fetchOnScroll p (e :: rest) w)) = trace w ++ [EvFetchNext (fetchNext p)].
Proof.
  intros Hvisible Hmore Hfallback Hlast.
  rewrite fetchOnScroll_cons, Hvisible, Hmore, Hfallback, Hlast; simpl.
  destruct (strict_eq (entryId e) (itemRefIndex p)); reflexivity.
Qed.

(** C1: an intersecting first entry whose parsed index equals [itemRefIndex],
    with [fetchMore] true, records that index in [lastItemIndex] and calls
    [fetchNext] exactly once in that invocation; nothing here excludes
    [itemRefIndex = fallBackRefIndex], where the fallback test then fails on
    the value just recorded. *)
Theorem primary_branch_fires_once (p : FetchOnScrollProps)
  (e : IntersectionObserverEntry) (rest : list IntersectionObserverEntry)
  (w : World) :
  isIntersecting e = true ->
  fetchMore_or_default p = true ->
  strict_eq (entryId e) (itemRefIndex p) = true ->
  let w' := snd (fetchOnScroll p (e :: rest) w) in
  lastItemIndex_current w' = Some (entryId e)
  /\ trace w' = trace w ++ [EvFetchNext (fetchNext p)]
  /\ fetchNext_calls w' = S (fetchNext_calls w).
Proof.
  intros Hvisible Hmore Hitem w'; subst w'.
  rewrite fetchOnScroll_cons, Hvisible, Hmore, Hitem; simpl.
  split; [reflexivity|]; split; [reflexivity|].
  apply (fetchNext_calls_snoc _ _ (fetchNext p)); reflexivity.
Qed.

Lemma primary_branch_fires_once_witness :
  (let w' := snd (fetchOnScroll (props_of 10 (Some TP75) None)
                    [entry_of 0 "7" true] initial_world) in
   lastItemIndex_current w' = Some (Int 7)
   /\ trace w' = [EvFetchNext 0]
   /\ fetchNext_calls w' = 1%nat)
  /\ (let w' := snd (fetchOnScroll (props_of 10 None None)
                       [entry_of 0 "9" true] initial_world) in
      lastItemIndex_current w' = Some (Int 9)
      /\ trace w' = [EvFetchNext 0]
      /\ fetchNext_calls w' = 1%nat).
Proof.
  split.
  - exact (primary_branch_fires_once (props_of 10 (Some TP75) None)
             (entry_of 0 "7" true) [] initial_world eq_refl eq_refl eq_refl).
  - exact (primary_branch_fires_once (props_of 10 None None)
             (entry_of 0 "9" true) [] initial_world eq_refl eq_refl eq_refl).
Defined.

(** C2: an intersecting first entry whose parsed index equals
    [fallBackRefIndex], with [fetchMore] true and [lastItemIndex] different
    from [itemRefIndex], calls [fetchNext] (exactly once).  In particular, for
    ten items and "75%" the indices are 7 and 9, and an entry carrying "9"
    that arrives while [lastItemIndex] is not 7 calls [fetchNext] exactly
    once. *)
Theorem fallback_branch_fires :
  (forall (p : FetchOnScrollProps) (e : IntersectionObserverEntry)
          (rest : list IntersectionObserverEntry) (w : World),
      isIntersecting e = true ->
      fetchMore_or_default p = true ->
      strict_eq (entryId e) (fallBackRefIndex p) = true ->
      strict_eq_nullable (lastItemIndex_current w) (itemRefIndex p) = false ->
      let w' := snd (fetchOnScroll p (e :: rest) w) in
      trace w' = trace w ++ [EvFetchNext (fetchNext p)]
      /\ fetchNext_calls w' = S (fetchNext_calls w))
  /\ (forall (p : FetchOnScrollProps) (e : IntersectionObserverEntry)
             (rest : list IntersectionObserverEntry) (w : World),
         numberOfItems p = Int 10 ->
         triggerPoint p = Some TP75 ->
         truthy_opt (triggerIndex p) = false ->
         fetchMore_or_default p = true ->
         isIntersecting e = true ->
         getAttribute (target e) "data-id" = Some "9"%string ->
         strict_eq_nullable (lastItemIndex_current w) (Int 7) = false ->
         let w' := snd (fetchOnScroll p (e :: rest) w) in
         itemRefIndex p = Int 7
         /\ fallBackRefIndex p = Int 9
         /\ trace w' = trace w ++ [EvFetchNext (fetchNext p)]
         /\ fetchNext_calls w' = S (fetchNext_calls w)).
Proof.
  split.
  - intros p e rest w Hvisible Hmore Hfallback Hlast w'; subst w'.
    pose proof (fallback_fires_once p e rest w Hvisible Hmore Hfallback Hlast) as Ht.
    split; [exact Ht | apply (fetchNext_calls_snoc _ _ _ Ht)].
  - intros p e rest w Hn Htp Hti Hmore Hvisible Hid Hlast w'; subst w'.
    assert (itemRefIndex p = Int 7) as Hitem.
    { rewrite (itemRefIndex_falsy p Hti), Hn, getTriggerPointValue_Int.
      unfold triggerPoint_or_default; rewrite Htp; reflexivity. }
    assert (fallBackRefIndex p = Int 9) as Hfb
      by (rewrite (fallBackRefIndex_Int p 10 Hn); reflexivity).
    assert (entryId e = Int 9) as Hentry
      by (unfold entryId; rewrite Hid; reflexivity).
    assert (trace (snd (fetchOnScroll p (e :: rest) w))
            = trace w ++ [EvFetchNext (fetchNext p)]) as Ht.
    { apply fallback_fires_once; try assumption.
      - rewrite Hentry, Hfb; reflexivity.
      - rewrite Hitem; exact Hlast. }
    repeat split; try assumption.
    apply (fetchNext_calls_snoc _ _ _ Ht).
Qed.

Lemma fallback_branch_fires_witness :
  let w' := snd (fetchOnScroll (props_of 10 (Some TP75) None)
                   [entry_of 0 "9" true] initial_world) in
  trace w' = [EvFetchNext 0] /\ fetchNext_calls w' = 1%nat.
Proof.
  exact (proj1 fallback_branch_fires (props_of 10 (Some TP75) None)
           (entry_of 0 "9" true) [] initial_world eq_refl eq_refl eq_refl eq_refl).
Defined.

(** C7: on an empty batch, on a first entry that is not intersecting, or
    with [fetchMore] false, the handler changes nothing: [fetchNext] is not
    called and [lastItemIndex] keeps its value. *)
Theorem handler_gates (p : FetchOnScrollProps)
  (entries : list IntersectionObserverEntry) (w : World) :
  (entries = []
   \/ (exists e rest, entries = e :: rest /\ isIntersecting e = false)
   \/ fetchMore_or_default p = false) ->
  let w' := snd (fetchOnScroll p entries w) in
  w' = w
  /\ fetchNext_calls w' = fetchNext_calls w
  /\ lastItemIndex_current w' = lastItemIndex_current w.
Proof.
  intros Hgate w'.
  assert (w' = w) as ->; [subst w'|repeat split].
  destruct Hgate as [->|[(e & rest & -> & Hhidden)|Hmore]].
  - reflexivity.
  - rewrite fetchOnScroll_cons, Hhidden; reflexivity.
  - destruct entries as [|e rest]; [reflexivity|].
    rewrite fetchOnScroll_cons, Hmore, andb_false_r; reflexivity.
Qed.

Lemma handler_gates_witness :
  snd (fetchOnScroll (props_of 10 None None) [] initial_world) = initial_world
  /\ snd (fetchOnScroll (props_of 10 None None) [entry_of 0 "9" false] initial_world)
     = initial_world
  /\ snd (fetchOnScroll
            {| fetchNext := 0; fetchMore := Some false; numberOfItems := Int 10;
               threshold := None; rootMargin := None;
               triggerPoint := None; triggerIndex := None |}
            [entry_of 0 "9" true] initial_world)
     = initial_world.
Proof.
  split; [|split].
  - apply (handler_gates (props_of 10 None None) [] initial_world).
    left; reflexivity.
  - apply (handler_gates (props_of 10 None None) [entry_of 0 "9" false] initial_world).
    right; left; exists (entry_of 0 "9" false), []; split; reflexivity.
  - apply (handler_gates
             {| fetchNext := 0; fetchMore := Some false; numberOfItems := Int 10;
                threshold := None; rootMargin := None;
                triggerPoint := None; triggerIndex := None |}
             [entry_of 0 "9" true] initial_world).
    right; right; reflexivity.
Defined.

(** C10: a batch of several entries is handled as its first entry alone; when
    that entry is not intersecting, or its index matches neither
    [itemRefIndex] nor [fallBackRefIndex], nothing happens, whatever the later
    entries of the batch are. *)
Theorem only_first_entry_examined (p : FetchOnScrollProps)
  (e : IntersectionObserverEntry) (rest : list IntersectionObserverEntry)
  (w : World) :
  fetchOnScroll p (e :: rest) w = fetchOnScroll p [e] w
  /\ (isIntersecting e = false
      \/ (strict_eq (entryId e) (itemRefIndex p) = false
          /\ strict_eq (entryId e) (fallBackRefIndex p) = false) ->
      let w' := snd (fetchOnScroll p (e :: rest) w) in
      w' = w /\ fetchNext_calls w' = fetchNext_calls w).
Proof.
  split; [rewrite !fetchOnScroll_cons; reflexivity|].
  intros Hskip w'.
  assert (w' = w) as ->; [subst w'|split; reflexivity].
  rewrite fetchOnScroll_cons.
  destruct Hskip as [->|[-> ->]]; [reflexivity|].
  destruct (isIntersecting e && fetchMore_or_default p); reflexivity.
Qed.

Lemma only_first_entry_examined_witness :
  snd (fetchOnScroll (props_of 10 (Some TP75) None)
         [entry_of 0 "7" false; entry_of 1 "7" true; entry_of 2 "9" true]
         initial_world) = initial_world
  /\ snd (fetchOnScroll (props_of 10 (Some TP75) None)
            [entry_of 0 "3" true; entry_of 1 "7" true; entry_of 2 "9" true]
            initial_world) = initial_world.
Proof.
  split.
  - apply (only_first_entry_examined (props_of 10 (Some TP75) None)
             (entry_of 0 "7" false) [entry_of 1 "7" true; entry_of 2 "9" true]
             initial_world).
    left; reflexivity.
  - apply (only_first_entry_examined (props_of 10 (Some TP75) None)
             (entry_of 0 "3" true) [entry_of 1 "7" true; entry_of 2 "9" true]
             initial_world).
    right; split; reflexivity.
Defined.

(** ** Identifiers that are not numerals *)





(** ** The ref callbacks over the life of a hook instance *)

Lemma length_released (cur : option nat) (l : list IntersectionObserver) :
  length (released cur l) = length l.
Proof. destruct cur; simpl; [apply length_alter|reflexivity]. Qed.

(** The effect of a ref callback on a concrete element, in closed form. *)
Lemma ref_callback_Some (h : RefCallback) (node : Element) (w : World) :
  ref_callback h (Some node) w =
  (Some (captured_observerRef h),
   let n := length (observers w) in
   let r := captured_observerRef h in
   {| ItemObserver_current :=
        match r with ref_Item => Some n | ref_fallback => ItemObserver_current w end;
      fallbackObserver_current :=
        match r with ref_fallback => Some n | ref_Item => fallbackObserver_current w end;
      lastItemIndex_current := lastItemIndex_current w;
      observers :=
        released (current r w) (observers w)
        ++ [{| io_callback := captured_iOCallback h;
               io_threshold := threshold (callback_scope h);
               io_rootMargin := rootMargin (callback_scope h);
               io_targets := [node] |}];
      trace :=
        trace w ++ release_events (current r w)
        ++ [EvConstruct n (threshold (callback_scope h)) (rootMargin (callback_scope h));
            EvObserve n node] |}).
Proof.
  unfold ref_callback, new_IntersectionObserver, observe, disconnect,
    set_current, set_observers, get_current, emit, mbind, M_bind, mret, M_ret.
  destruct (current (captured_observerRef h) w) as [o|] eqn:Hcur; simpl.
  - rewrite length_alter.
    rewrite (alter_app_r_alt _ _ _ (length (observers w)))
      by (rewrite length_alter; lia).
    rewrite length_alter, Nat.sub_diag; simpl.
    rewrite <- !app_assoc; reflexivity.
  - rewrite (alter_app_r_alt _ _ _ (length (observers w))) by lia.
    rewrite Nat.sub_diag; simpl.
    rewrite <- !app_assoc; reflexivity.
Qed.

Lemma ref_callback_None (h : RefCallback) (w : World) :
  ref_callback h None w = (None, w).
Proof. reflexivity. Qed.

Lemma run_cleanup_eq (r : RefObject) (w : World) :
  run_cleanup r w =
  (tt,
   match current r w with
   | Some o =>
       {| ItemObserver_current := ItemObserver_current w;
          fallbackObserver_current := fallbackObserver_current w;
          lastItemIndex_current := lastItemIndex_current w;
          observers := released (Some o) (observers w);
          trace := trace w ++ [EvDisconnect o] |}
   | None => w
   end).
Proof.
  unfold run_cleanup, get_current, mbind, M_bind.
  destruct (current r w); reflexivity.
Qed.

Lemma well_formed_initial : well_formed initial_world.
Proof.
  split.
  - intros [] o H; discriminate H.
  - intros o ob H; simpl in H; destruct o; discriminate H.
Qed.

(** The handler touches neither the cells nor the observers. *)
Lemma fetchOnScroll_frame (p : FetchOnScrollProps)
  (entries : list IntersectionObserverEntry) (w : World) :
  let w' := snd (fetchOnScroll p entries w) in
  observers w' = observers w /\ forall r, current r w' = current r w.
Proof.
  destruct entries as [|e rest]; [split; reflexivity|].
  rewrite fetchOnScroll_cons; simpl.
  destruct (isIntersecting e && fetchMore_or_default p); [|split; reflexivity].
  destruct (strict_eq (entryId e) (itemRefIndex p)).
  - split; [reflexivity|intros []; reflexivity].
  - destruct (strict_eq (entryId e) (fallBackRefIndex p)
              && negb (strict_eq_nullable (lastItemIndex_current w) (itemRefIndex p)));
      (split; [reflexivity|intros []; reflexivity]).
Qed.

Lemma well_formed_frame (w w' : World) :
  observers w' = observers w ->
  (forall r, current r w' = current r w) ->
  well_formed w -> well_formed w'.
Proof.
  intros Hobs Hcur [Hc Ha]; split.
  - intros r o; rewrite Hcur, Hobs; apply Hc.
  - intros o ob; rewrite Hobs; intros Hlook Hact.
    destruct (Ha o ob Hlook Hact) as [Hone [r Hr]].
    split; [exact Hone|exists r; rewrite Hcur; exact Hr].
Qed.

Lemma well_formed_deliver (o : nat) (entries : list IntersectionObserverEntry)
  (w : World) :
  well_formed w -> well_formed (snd (deliver o entries w)).
Proof.
  intros Hwf; unfold deliver.
  destruct (observers w !! o) as [ob|]; [|exact Hwf].
  destruct (List.filter (watches ob) entries) as [|e batch]; [exact Hwf|].
  destruct (fetchOnScroll_frame (handler_scope (io_callback ob)) (e :: batch) w)
    as [Hobs Hcur].
  exact (well_formed_frame _ _ Hobs Hcur Hwf).
Qed.

Lemma lookup_released (cur : option nat) (l : list IntersectionObserver)
  (o : nat) (ob : IntersectionObserver) :
  released cur l !! o = Some ob ->
  io_targets ob <> [] ->
  cur <> Some o /\ l !! o = Some ob.
Proof.
  destruct cur as [o0|]; simpl; [|intros H _; split; [discriminate|exact H]].
  destruct (decide (o0 = o)) as [->|Hne].
  - rewrite list_lookup_alter_eq.
    destruct (l !! o) as [ob0|]; simpl; [|discriminate].
    intros [= <-] Hact; simpl in Hact; contradiction.
  - rewrite list_lookup_alter_ne by exact Hne.
    intros H _; split; [congruence|exact H].
Qed.

Lemma well_formed_cleanup (r : RefObject) (w : World) :
  well_formed w -> well_formed (snd (run_cleanup r w)).
Proof.
  intros [Hc Ha]; rewrite run_cleanup_eq; simpl.
  destruct (current r w) as [o0|] eqn:Hcur; [|split; assumption].
  split.
  - intros r' o Hr'; simpl; rewrite length_alter.
    apply (Hc r'); destruct r'; exact Hr'.
  - intros o ob Hlook Hact; simpl in Hlook.
    destruct (lookup_released (Some o0) _ _ _ Hlook Hact) as [_ Hold].
    destruct (Ha o ob Hold Hact) as [Hone [r' Hr']].
    split; [exact Hone|exists r'; destruct r'; exact Hr'].
Qed.

Lemma well_formed_ref_callback (h : RefCallback) (node : option Element)
  (w : World) :
  well_formed w -> well_formed (snd (ref_callback h node w)).
Proof.
  intros [Hc Ha].
  destruct node as [node|]; [|split; assumption].
  rewrite ref_callback_Some; simpl.
  destruct h as [id scope r cb]; simpl.
  split.
  - intros r' o Hr'; simpl.
    rewrite length_app, length_released; simpl.
    destruct r, r'; simpl in Hr';
      first [ injection Hr' as <-; lia
            | (pose proof (Hc ref_Item o Hr'); lia)
            | (pose proof (Hc ref_fallback o Hr'); lia) ].
  - intros o ob Hlook Hact; simpl in Hlook.
    destruct (decide (o < length (observers w))%nat) as [Hlt|Hge].
    + rewrite lookup_app_l in Hlook by (rewrite length_released; exact Hlt).
      destruct (lookup_released _ _ _ _ Hlook Hact) as [Hne Hold].
      destruct (Ha o ob Hold Hact) as [Hone [r' Hr']].
      split; [exact Hone|].
      exists r'; destruct r, r'; simpl in *; congruence.
    + rewrite lookup_app_r in Hlook by (rewrite length_released; lia).
      rewrite length_released in Hlook.
      destruct (o - length (observers w))%nat as [|k] eqn:Hk;
        [|simpl in Hlook; destruct k; discriminate].
      simpl in Hlook; injection Hlook as <-; simpl.
      split; [exists node; reflexivity|].
      exists r; replace o with (length (observers w)) by lia.
      destruct r; reflexivity.
Qed.

Lemma well_formed_call (c : Call) (w : World) :
  well_formed w -> well_formed (snd (call c w)).
Proof.
  intros Hwf; destruct c as [h node|r|o entries]; simpl.
  - pose proof (well_formed_ref_callback h node w Hwf) as H.
    unfold mbind, M_bind.
    destruct (ref_callback h node w); exact H.
  - apply well_formed_cleanup; exact Hwf.
  - apply well_formed_deliver; exact Hwf.
Qed.

Lemma well_formed_run (cs : list Call) (w : World) :
  well_formed w -> well_formed (snd (run cs w)).
Proof.
  revert w; induction cs as [|c cs IH]; intros w Hwf; [exact Hwf|].
  simpl; unfold mbind, M_bind.
  pose proof (well_formed_call c w Hwf) as Hstep.
  destruct (call c w) as [[] w1]; apply IH; exact Hstep.
Qed.


(** ** Renders and the closures they return *)

Lemma useCallback_cases {F : Type} (unchanged : F -> bool) (memo : option F)
  (callback : F) :
  useCallback unchanged memo callback = callback
  \/ exists kept, memo = Some kept /\ unchanged kept = true
                  /\ useCallback unchanged memo callback = kept.
Proof.
  unfold useCallback; destruct memo as [kept|]; [|left; reflexivity].
  destruct (unchanged kept) eqn:Hkept; [|left; reflexivity].
  right; exists kept; repeat split; exact Hkept.
Qed.

Lemma renders_snoc (ps : list FetchOnScrollProps) (p : FetchOnScrollProps) :
  renders (ps ++ [p]) = snd (useFetchOnScroll p (renders ps)).
Proof. unfold renders; rewrite foldl_snoc; reflexivity. Qed.

(** The ref callbacks a render returns act on the cells of that render. *)
Lemma returned_cells (p : FetchOnScrollProps) (s : HookState) :
  captured_observerRef (Returned.itemRef (fst (useFetchOnScroll p s))) = ItemObserver p
  /\ captured_observerRef (Returned.fallbackRef (fst (useFetchOnScroll p s)))
     = ref_fallback.
Proof.
  unfold useFetchOnScroll, useIntersectionObserver; simpl; split.
  - match goal with |- captured_observerRef (useCallback ?u ?m ?c) = _ =>
      destruct (useCallback_cases u m c) as [->|(kept & _ & Hdeps & ->)]
    end; [reflexivity|].
    apply andb_true_iff in Hdeps as [Hcell _].
    apply bool_decide_eq_true in Hcell; exact Hcell.
  - match goal with |- captured_observerRef (useCallback ?u ?m ?c) = _ =>
      destruct (useCallback_cases u m c) as [->|(kept & _ & Hdeps & ->)]
    end; [reflexivity|].
    apply andb_true_iff in Hdeps as [Hcell _].
    apply bool_decide_eq_true in Hcell; exact Hcell.
Qed.






(** The scenario of the test suite: the primary ref callback is attached to
    item 7 of ten at "75%", then the runtime reports that item as
    intersecting. *)
Example attach_then_intersect :
  let returned := rendered [] (props_of 10 (Some TP75) None) in
  let w := snd (run [CallRef (Returned.itemRef returned) (Some (element_with_id 7 "7"));
                     Notify 0 [entry_of 7 "7" true]] initial_world) in
  fetchNext_calls w = 1%nat /\ lastItemIndex_current w = Some (Int 7).
Proof. vm_compute; split; reflexivity. Qed.

(** ** Aliasing of the two cells *)

(** The aliasing test, spelled out: the variable [ItemObserver] denotes the
    fallback cell exactly when [triggerPoint] is "100%" (given or defaulted)
    or [triggerIndex] strictly equals the last index. *)
Lemma ItemObserver_fallback_iff (p : FetchOnScrollProps) :
  ItemObserver p = ref_fallback
  <-> triggerPoint_or_default p = TP100 \/ triggerIndex_is_fallback p = true.
Proof.
  unfold ItemObserver.
  destruct (triggerPoint_or_default p), (triggerIndex_is_fallback p);
    simpl; split; intros H; try reflexivity; try discriminate H;
    try (left; reflexivity); try (right; reflexivity);
    destruct H as [H|H]; discriminate H.
Qed.

(** C6, the code at the failing input: ten items and [triggerIndex = 3] with
    [triggerPoint] left to its default.  The resolved index is 3, not the last
    index 9, yet both returned ref callbacks act on the fallback cell; so once
    both have run, the observer of item 3 is disconnected and a notification
    for item 3 reaches nobody.  In the other direction, four items at "75%"
    resolve to the last index 3 and keep two cells. *)
Theorem aliasing_at_default_triggerPoint :
  let p := props_of 10 None (Some (Int 3)) in
  let returned := rendered [] p in
  let w := snd (run [CallRef (Returned.itemRef returned) (Some (element_with_id 3 "3"));
                     CallRef (Returned.fallbackRef returned) (Some (element_with_id 9 "9"))]
                  initial_world) in
  let q := props_of 4 (Some TP75) None in
  Returned.itemRefIndex returned = Int 3
  /\ Returned.fallBackRefIndex returned = Int 9
  /\ strict_eq (itemRefIndex p) (fallBackRefIndex p) = false
  /\ ItemObserver p = ref_fallback
  /\ captured_observerRef (Returned.itemRef returned) = ref_fallback
  /\ captured_observerRef (Returned.fallbackRef returned) = ref_fallback
  /\ (io_targets <$> observers w) = [[]; [element_with_id 9 "9"]]
  /\ snd (deliver 0 [entry_of 3 "3" true] w) = w
  /\ fetchNext_calls (snd (deliver 0 [entry_of 3 "3" true] w)) = 0%nat
  /\ Returned.itemRefIndex (rendered [] q) = Int 3
  /\ Returned.fallBackRefIndex (rendered [] q) = Int 3
  /\ captured_observerRef (Returned.itemRef (rendered [] q)) = ref_Item
  /\ captured_observerRef (Returned.fallbackRef (rendered [] q)) = ref_fallback.
Proof. vm_compute; repeat split. Qed.

(** ** Beyond the claims: the resolved index against the last index *)



(** ** Beyond the claims: the handler, invocation by invocation *)

(** The whole effect of one invocation of the handler. *)
Lemma fetchOnScroll_effect (p : FetchOnScrollProps)
  (entries : list IntersectionObserverEntry) (w : World) :
  let w' := snd (fetchOnScroll p entries w) in
  trace w' = trace w ++ (if fires p entries w then [EvFetchNext (fetchNext p)] else [])
  /\ fetchNext_calls w'
     = (fetchNext_calls w + (if fires p entries w then 1 else 0))%nat
  /\ observers w' = observers w
  /\ (forall r, current r w' = current r w)
  /\ lastItemIndex_current w'
     = (if primary_match p entries then entryId <$> head entries
        else lastItemIndex_current w).
Proof.
  intros w'; subst w'.
  destruct (fetchOnScroll_frame p entries w) as [Hobs Hcur].
  assert (trace (snd (fetchOnScroll p entries w))
          = trace w ++ (if fires p entries w then [EvFetchNext (fetchNext p)] else [])
          /\ lastItemIndex_current (snd (fetchOnScroll p entries w))
             = (if primary_match p entries then entryId <$> head entries
                else lastItemIndex_current w)) as [Htrace Hlast].
  { destruct entries as [|e rest]; [simpl; rewrite app_nil_r; split; reflexivity|].
    rewrite fetchOnScroll_cons; unfold fires, primary_match; simpl.
    destruct (isIntersecting e && fetchMore_or_default p); simpl;
      [|rewrite app_nil_r; split; reflexivity].
    destruct (strict_eq (entryId e) (itemRefIndex p)); simpl;
      [split; reflexivity|].
    destruct (strict_eq (entryId e) (fallBackRefIndex p)
              && negb (strict_eq_nullable (lastItemIndex_current w) (itemRefIndex p)));
      simpl; [|rewrite app_nil_r]; split; reflexivity. }
  split; [exact Htrace|].
  split; [|split; [exact Hobs|split; [exact Hcur|exact Hlast]]].
  destruct (fires p entries w).
  - rewrite (fetchNext_calls_snoc _ _ _ Htrace); lia.
  - rewrite app_nil_r in Htrace; unfold fetchNext_calls; rewrite Htrace; lia.
Qed.

(** X2: one invocation of the handler adds at most one event to the trace, a
    call of the [fetchNext] of its own scope, and it does so exactly when the
    batch is not empty, its first entry is intersecting, [fetchMore] is true
    and the parsed index equals [itemRefIndex], or equals [fallBackRefIndex]
    while [lastItemIndex] differs from [itemRefIndex].  It leaves the
    observers and both cells as they are, and it writes [lastItemIndex] only
    on the primary branch. *)
Theorem handler_fires_exactly_when (p : FetchOnScrollProps)
  (entries : list IntersectionObserverEntry) (w : World) :
  let w' := snd (fetchOnScroll p entries w) in
  trace w' = trace w ++ (if fires p entries w then [EvFetchNext (fetchNext p)] else [])
  /\ fetchNext_calls w'
     = (fetchNext_calls w + (if fires p entries w then 1 else 0))%nat
  /\ observers w' = observers w
  /\ (forall r, current r w' = current r w)
  /\ lastItemIndex_current w'
     = (if primary_match p entries then entryId <$> head entries
        else lastItemIndex_current w).
Proof. exact (fetchOnScroll_effect p entries w). Qed.

Lemma fires_after_primary (p : FetchOnScrollProps)
  (entries : list IntersectionObserverEntry) (w : World) :
  strict_eq_nullable (lastItemIndex_current w) (itemRefIndex p) = true ->
  fires p entries w = primary_match p entries.
Proof.
  intros Hlast; destruct entries as [|e rest]; [reflexivity|].
  unfold fires, primary_match; rewrite Hlast; simpl.
  rewrite andb_false_r, orb_false_r; reflexivity.
Qed.

(** X3: once [lastItemIndex] equals [itemRefIndex] (the primary branch has
    fired for the current index), the fallback branch of that handler stays
    silent for good: over any sequence of batches, [lastItemIndex] keeps
    equalling [itemRefIndex] and [fetchNext] is called once per batch that
    takes the primary branch, and never otherwise. *)
Theorem fallback_silent_after_primary (p : FetchOnScrollProps)
  (batches : list (list IntersectionObserverEntry)) (w : World) :
  strict_eq_nullable (lastItemIndex_current w) (itemRefIndex p) = true ->
  let w' := snd (handle_batches p batches w) in
  strict_eq_nullable (lastItemIndex_current w') (itemRefIndex p) = true
  /\ fetchNext_calls w'
     = (fetchNext_calls w + length (List.filter (primary_match p) batches))%nat.
Proof.
  revert w; induction batches as [|entries batches IH]; intros w Hlast.
  - simpl; split; [exact Hlast|lia].
  - simpl; unfold mbind, M_bind.
    destruct (fetchOnScroll_effect p entries w)
      as (_ & Hcalls & _ & _ & Hlast').
    rewrite (fires_after_primary p entries w Hlast) in Hcalls.
    destruct (fetchOnScroll p entries w) as [[] w1]; simpl in Hcalls, Hlast'.
    assert (strict_eq_nullable (lastItemIndex_current w1) (itemRefIndex p) = true)
      as Hlast1.
    { rewrite Hlast'; destruct (primary_match p entries) eqn:Hmatch; [|exact Hlast].
      destruct entries as [|e rest]; [discriminate Hmatch|].
      unfold primary_match in Hmatch; simpl.
      apply andb_true_iff in Hmatch as [_ Hmatch]; exact Hmatch. }
    destruct (IH w1 Hlast1) as [Hkeep Hcount].
    split; [exact Hkeep|].
    rewrite Hcount, Hcalls.
    destruct (primary_match p entries); simpl; lia.
Qed.

Lemma fallback_silent_after_primary_witness :
  let p := props_of 10 (Some TP75) None in
  let w := snd (fetchOnScroll p [entry_of 7 "7" true] initial_world) in
  let w' := snd (handle_batches p
                   [[entry_of 9 "9" true]; [entry_of 7 "7" true];
                    [entry_of 9 "9" true]] w) in
  fetchNext_calls w = 1%nat /\ fetchNext_calls w' = 2%nat.
Proof.
  intros p w w'; split; [reflexivity|].
  exact (proj2 (fallback_silent_after_primary p
                  [[entry_of 9 "9" true]; [entry_of 7 "7" true];
                   [entry_of 9 "9" true]] w eq_refl)).
Defined.




(** ** Beyond the claims: releasing and keeping observers *)

Lemma run_cons (c : Call) (cs : list Call) (w : World) :
  snd (run (c :: cs) w) = snd (run cs (snd (call c w))).
Proof.
  simpl; unfold mbind, M_bind; destruct (call c w) as [[] w1]; reflexivity.
Qed.

Lemma call_CallRef (h : RefCallback) (node : option Element) (w : World) :
  snd (call (CallRef h node) w) = snd (ref_callback h node w).
Proof.
  simpl; unfold mbind, M_bind; destruct (ref_callback h node w); reflexivity.
Qed.

Lemma released_idempotent (cur : option nat) (l : list IntersectionObserver) :
  released cur (released cur l) = released cur l.
Proof.
  destruct cur as [o|]; [simpl|reflexivity].
  rewrite list_alter_alter_eq; apply list_alter_ext; [|reflexivity].
  intros; reflexivity.
Qed.

(** X5: the cleanup closure a ref callback returned disconnects whatever
    observer its cell holds when it runs (also one a later call of a ref
    callback stored there), and nothing else: the other observers are
    untouched, the cell keeps pointing to the disconnected observer, and
    running the cleanup again leaves every observer as it is. *)
Theorem cleanup_releases_current (cs : list Call) (r : Cleanup) :
  let w := snd (run cs initial_world) in
  let w1 := snd (run_cleanup r w) in
  let w2 := snd (run_cleanup r w1) in
  (forall r', current r' w1 = current r' w)
  /\ (forall o, current r w = Some o ->
        exists ob, observers w1 !! o = Some ob /\ io_targets ob = [])
  /\ (forall o, current r w <> Some o -> observers w1 !! o = observers w !! o)
  /\ trace w1 = trace w ++ release_events (current r w)
  /\ lastItemIndex_current w1 = lastItemIndex_current w
  /\ observers w2 = observers w1.
Proof.
  intros w w1 w2.
  assert (well_formed w) as Hwf by (apply well_formed_run, well_formed_initial).
  assert (forall r', current r' w1 = current r' w) as Hcells.
  { intros r'; subst w1; rewrite run_cleanup_eq; simpl.
    destruct (current r w); [destruct r'|]; reflexivity. }
  assert (observers w1 = released (current r w) (observers w)) as Hobs.
  { subst w1; rewrite run_cleanup_eq; simpl.
    destruct (current r w); reflexivity. }
  split; [exact Hcells|].
  split.
  { intros o Hcur.
    pose proof (wf_current w Hwf r o Hcur) as Hlt.
    destruct (lookup_lt_is_Some_2 (observers w) o Hlt) as [ob Hlook].
    exists (with_targets (fun _ => []) ob); split; [|reflexivity].
    rewrite Hobs, Hcur; simpl.
    rewrite list_lookup_alter_eq, Hlook; reflexivity. }
  split.
  { intros o Hne; rewrite Hobs.
    destruct (current r w) as [o0|]; [simpl|reflexivity].
    apply list_lookup_alter_ne; congruence. }
  split.
  { subst w1; rewrite run_cleanup_eq; simpl.
    destruct (current r w); simpl; [reflexivity|rewrite app_nil_r; reflexivity]. }
  split.
  { subst w1; rewrite run_cleanup_eq; simpl.
    destruct (current r w); reflexivity. }
  assert (observers w2 = released (current r w1) (observers w1)) as Hobs2.
  { subst w2; rewrite run_cleanup_eq; simpl.
    destruct (current r w1); reflexivity. }
  rewrite Hobs2, Hcells, Hobs; apply released_idempotent.
Qed.

Lemma quiet_call_frame (c : Call) (w : World) :
  quiet c = true ->
  observers (snd (call c w)) = observers w
  /\ forall r, current r (snd (call c w)) = current r w.
Proof.
  destruct c as [h [node|]|r|o entries]; try discriminate; intros _.
  - rewrite call_CallRef, ref_callback_None; split; reflexivity.
  - simpl; unfold deliver.
    destruct (observers w !! o) as [ob|]; [|split; reflexivity].
    destruct (List.filter (watches ob) entries) as [|e batch];
      [split; reflexivity|].
    apply (fetchOnScroll_frame (handler_scope (io_callback ob)) (e :: batch) w).
Qed.

(** X6: calling a ref callback with [null] releases nothing, and neither does
    a notification: over any sequence of such calls every observer keeps its
    targets and both cells keep their observers, so an element attached
    before is still watched afterwards. *)
Theorem null_ref_keeps_watching (cs : list Call) (w : World) :
  forallb quiet cs = true ->
  observers (snd (run cs w)) = observers w
  /\ forall r, current r (snd (run cs w)) = current r w.
Proof.
  revert w; induction cs as [|c cs IH]; intros w Hquiet; [split; reflexivity|].
  simpl in Hquiet; apply andb_true_iff in Hquiet as [Hc Hcs].
  rewrite run_cons.
  destruct (quiet_call_frame c w Hc) as [Hobs Hcur].
  destruct (IH (snd (call c w)) Hcs) as [Hobs' Hcur'].
  split; [rewrite Hobs', Hobs; reflexivity|].
  intros r; rewrite Hcur', Hcur; reflexivity.
Qed.

Lemma null_ref_keeps_watching_witness :
  let h := Returned.itemRef (rendered [] (props_of 10 (Some TP75) None)) in
  let w := snd (ref_callback h (Some (element_with_id 7 "7")) initial_world) in
  let w' := snd (run [CallRef h None; Notify 0 [entry_of 7 "7" false];
                      CallRef h None] w) in
  (io_targets <$> observers w') = [[element_with_id 7 "7"]]
  /\ current ref_Item w' = Some 0%nat.
Proof.
  intros h w w'.
  destruct (null_ref_keeps_watching
              [CallRef h None; Notify 0 [entry_of 7 "7" false]; CallRef h None]
              w eq_refl) as [Hobs Hcur].
  split; [exact (f_equal (fmap io_targets) Hobs)|exact (Hcur ref_Item)].
Defined.

Lemma lookup_released_options (cur : option nat) (l : list IntersectionObserver)
  (o : nat) (ob : IntersectionObserver) :
  l !! o = Some ob ->
  exists ob', released cur l !! o = Some ob'
              /\ same_options ob' ob
              /\ (io_targets ob' = io_targets ob \/ io_targets ob' = []).
Proof.
  intros Hlook; destruct cur as [o0|]; simpl.
  - destruct (decide (o0 = o)) as [->|Hne].
    + exists (with_targets (fun _ => []) ob).
      rewrite list_lookup_alter_eq, Hlook.
      split; [reflexivity|]; split; [repeat split|right; reflexivity].
    + exists ob; rewrite list_lookup_alter_ne by exact Hne.
      split; [exact Hlook|]; split; [repeat split|left; reflexivity].
  - exists ob; split; [exact Hlook|]; split; [repeat split|left; reflexivity].
Qed.

Lemma call_keeps_options (c : Call) (w : World) (o : nat)
  (ob : IntersectionObserver) :
  observers w !! o = Some ob ->
  exists ob', observers (snd (call c w)) !! o = Some ob'
              /\ same_options ob' ob
              /\ (io_targets ob' = io_targets ob \/ io_targets ob' = []).
Proof.
  intros Hlook.
  assert (exists ob', observers w !! o = Some ob' /\ same_options ob' ob
                      /\ (io_targets ob' = io_targets ob \/ io_targets ob' = []))
    as Hsame by (exists ob; split; [exact Hlook|]; split;
                 [repeat split|left; reflexivity]).
  destruct c as [h [node|]|r|o' entries].
  - rewrite call_CallRef, ref_callback_Some; simpl.
    destruct (lookup_released_options (current (captured_observerRef h) w)
                _ o ob Hlook) as (ob' & Hlook' & Hopts & Htargets).
    exists ob'; split; [|split; assumption].
    rewrite lookup_app_l; [exact Hlook'|].
    rewrite length_released; apply (lookup_lt_Some _ _ _ Hlook).
  - rewrite call_CallRef, ref_callback_None; exact Hsame.
  - simpl; rewrite run_cleanup_eq; simpl.
    destruct (current r w) as [o0|]; [|exact Hsame].
    exact (lookup_released_options (Some o0) _ o ob Hlook).
  - destruct (quiet_call_frame (Notify o' entries) w eq_refl) as [-> _].
    exact Hsame.
Qed.

(** X8: an observer is never removed and never reconfigured: whatever is
    called later, the observer with a given creation number still exists with
    the callback, [threshold] and [rootMargin] it was constructed with, and
    its targets are either what they were or none (an observer that was
    disconnected never watches again). *)
Theorem observers_keep_their_options (cs : list Call) (w : World) (o : nat)
  (ob : IntersectionObserver) :
  observers w !! o = Some ob ->
  exists ob', observers (snd (run cs w)) !! o = Some ob'
              /\ same_options ob' ob
              /\ (io_targets ob' = io_targets ob \/ io_targets ob' = []).
Proof.
  revert w ob; induction cs as [|c cs IH]; intros w ob Hlook.
  - exists ob; split; [exact Hlook|]; split; [repeat split|left; reflexivity].
  - rewrite run_cons.
    destruct (call_keeps_options c w o ob Hlook)
      as (ob1 & Hlook1 & (Hcb1 & Hth1 & Hrm1) & Ht1).
    destruct (IH _ ob1 Hlook1) as (ob' & Hlook' & (Hcb & Hth & Hrm) & Ht).
    exists ob'; split; [exact Hlook'|].
    split; [repeat split; congruence|].
    destruct Ht as [Ht|Ht]; [|right; exact Ht].
    destruct Ht1 as [Ht1|Ht1]; [left|right]; congruence.
Qed.

Lemma observers_keep_their_options_witness :
  let p := with_options (Some (Fin (1 # 2))) (Some "10px"%string)
             (props_of 10 (Some TP75) None) in
  let q := with_options (Some (Fin (9 # 10))) None (props_of 12 (Some TP75) None) in
  let w := snd (ref_callback (Returned.itemRef (rendered [] p))
                  (Some (element_with_id 7 "7")) initial_world) in
  let w' := snd (run [CallRef (Returned.itemRef (rendered [p] q))
                        (Some (element_with_id 9 "9"));
                      CallCleanup ref_Item] w) in
  exists ob', observers w' !! 0%nat = Some ob'
              /\ io_threshold ob' = Some (Fin (1 # 2))
              /\ io_rootMargin ob' = Some "10px"%string.
Proof.
  intros p q w w'.
  destruct (observers_keep_their_options
              [CallRef (Returned.itemRef (rendered [p] q))
                 (Some (element_with_id 9 "9"));
               CallCleanup ref_Item] w 0 _ eq_refl)
    as (ob' & Hlook & (_ & Hth & Hrm) & _).
  exists ob'; split; [exact Hlook|split; [exact Hth|exact Hrm]].
Defined.

(** X7: however often ref callbacks, cleanups and notifications are called,
    at most two observers watch anything at any time, each of them exactly
    one element, and each is the observer one of the two cells holds. *)
Theorem at_most_two_active_observers (cs : list Call) :
  let w := snd (run cs initial_world) in
  (length (active_observers w) <= 2)%nat
  /\ forall o, o ∈ active_observers w ->
       (exists ob node, observers w !! o = Some ob /\ io_targets ob = [node])
       /\ (exists r, current r w = Some o).
Proof.
  intros w.
  assert (well_formed w) as Hwf by (apply well_formed_run, well_formed_initial).
  assert (forall o, o ∈ active_observers w ->
            (exists ob node, observers w !! o = Some ob /\ io_targets ob = [node])
            /\ (exists r, current r w = Some o)) as Hactive.
  { intros o Ho; unfold active_observers in Ho.
    apply list_elem_of_filter in Ho as [Hwatch _].
    destruct (observers w !! o) as [ob|] eqn:Hlook; [|discriminate Hwatch].
    simpl in Hwatch; injection Hwatch as Hwatch.
    assert (io_targets ob <> []) as Hne
      by (unfold watching in Hwatch; destruct (io_targets ob); congruence).
    destruct (wf_active w Hwf o ob Hlook Hne) as [[node Hnode] Hcell].
    split; [exists ob, node; split; [reflexivity|exact Hnode]|exact Hcell]. }
  split; [|exact Hactive].
  transitivity (length (omap id [current ref_Item w; current ref_fallback w])).
  - apply submseteq_length, NoDup_submseteq.
    + apply NoDup_filter, NoDup_seq.
    + intros o Ho; destruct (Hactive o Ho) as [_ [r Hr]].
      apply list_elem_of_omap; exists (Some o); split; [|reflexivity].
      destruct r; rewrite <- Hr; [left|right; left].
  - destruct (current ref_Item w), (current ref_fallback w); simpl; lia.
Qed.

(** ** Beyond the claims: the calls the hook makes on its collaborators *)

Lemma constructed_app (t u : list Event) :
  constructed (t ++ u) = constructed t ++ constructed u.
Proof. apply omap_app. Qed.

Lemma disconnected_app (t u : list Event) :
  disconnected (t ++ u) = disconnected t ++ disconnected u.
Proof. apply omap_app. Qed.

(** What one call adds to the trace. *)
Lemma call_trace (c : Call) (w : World) :
  well_formed w ->
  let w' := snd (call c w) in
  exists chunks,
    trace w' = trace w ++ concat chunks
    /\ forallb chunk_ok chunks = true
    /\ constructed (concat chunks)
       = seq (length (observers w)) (length (observers w') - length (observers w))
    /\ Forall (fun o => (o < length (observers w))%nat) (disconnected (concat chunks))
    /\ (length (observers w) <= length (observers w'))%nat.
Proof.
  intros Hwf w'; subst w'.
  assert (exists chunks : list (list Event),
            trace w = trace w ++ concat chunks
            /\ forallb chunk_ok chunks = true
            /\ constructed (concat chunks)
               = seq (length (observers w)) (length (observers w) - length (observers w))
            /\ Forall (fun o => (o < length (observers w))%nat)
                 (disconnected (concat chunks))
            /\ (length (observers w) <= length (observers w))%nat) as Hnothing.
  { exists []; simpl; rewrite app_nil_r, Nat.sub_diag.
    repeat split; [constructor|lia]. }
  destruct c as [h [node|]|r|o entries].
  - rewrite call_CallRef, ref_callback_Some; simpl.
    rewrite length_app, length_released; simpl.
    replace (length (observers w) + 1 - length (observers w))%nat with 1%nat by lia.
    destruct (current (captured_observerRef h) w) as [o|] eqn:Hcur; simpl.
    + exists [[EvDisconnect o];
              [EvConstruct (length (observers w)) (threshold (callback_scope h))
                 (rootMargin (callback_scope h));
               EvObserve (length (observers w)) node]]; simpl.
      rewrite Nat.eqb_refl.
      repeat split; [|lia].
      constructor; [exact (wf_current w Hwf _ o Hcur)|constructor].
    + exists [[EvConstruct (length (observers w)) (threshold (callback_scope h))
                 (rootMargin (callback_scope h));
               EvObserve (length (observers w)) node]]; simpl.
      rewrite Nat.eqb_refl.
      repeat split; [constructor|lia].
  - rewrite call_CallRef, ref_callback_None; exact Hnothing.
  - simpl; rewrite run_cleanup_eq; simpl.
    destruct (current r w) as [o|] eqn:Hcur; [simpl|exact Hnothing].
    rewrite length_alter, Nat.sub_diag.
    exists [[EvDisconnect o]]; simpl.
    repeat split; [|lia].
    constructor; [exact (wf_current w Hwf r o Hcur)|constructor].
  - simpl; unfold deliver.
    destruct (observers w !! o) as [ob|]; [|exact Hnothing].
    destruct (List.filter (watches ob) entries) as [|e batch]; [exact Hnothing|].
    destruct (fetchOnScroll_effect (handler_scope (io_callback ob))
                (e :: batch) w) as (Htrace & _ & Hobs & _).
    rewrite Hobs, Nat.sub_diag.
    destruct (fires (handler_scope (io_callback ob)) (e :: batch) w).
    + exists [[EvFetchNext (fetchNext (handler_scope (io_callback ob)))]]; simpl.
      repeat split; [exact Htrace|constructor|lia].
    + exists []; simpl.
      repeat split; [exact Htrace|constructor|lia].
Qed.

Lemma run_trace (cs : list Call) (w : World) :
  well_formed w ->
  let w' := snd (run cs w) in
  exists chunks,
    trace w' = trace w ++ concat chunks
    /\ forallb chunk_ok chunks = true
    /\ constructed (concat chunks)
       = seq (length (observers w)) (length (observers w') - length (observers w))
    /\ Forall (fun o => (o < length (observers w'))%nat) (disconnected (concat chunks))
    /\ (length (observers w) <= length (observers w'))%nat.
Proof.
  revert w; induction cs as [|c cs IH]; intros w Hwf w'; subst w'.
  - exists []; simpl; rewrite app_nil_r, Nat.sub_diag.
    repeat split; [constructor|lia].
  - rewrite run_cons.
    destruct (call_trace c w Hwf) as (c1 & Ht1 & Hok1 & Hcon1 & Hdis1 & Hle1).
    destruct (IH _ (well_formed_call c w Hwf))
      as (c2 & Ht2 & Hok2 & Hcon2 & Hdis2 & Hle2).
    exists (c1 ++ c2).
    rewrite concat_app, constructed_app, disconnected_app, forallb_app.
    rewrite Ht2, Ht1, Hok1, Hok2, Hcon1, Hcon2, <- app_assoc.
    split; [reflexivity|]; split; [reflexivity|].
    split.
    { replace (length (observers (snd (run cs (snd (call c w)))))
               - length (observers w))%nat
        with ((length (observers (snd (call c w))) - length (observers w))
              + (length (observers (snd (run cs (snd (call c w)))))
                 - length (observers (snd (call c w)))))%nat by lia.
      rewrite seq_app; do 2 f_equal; lia. }
    split; [|lia].
    apply Forall_app; split; [|exact Hdis2].
    eapply Forall_impl; [exact Hdis1|]; simpl; intros; lia.
Qed.

(** X9: the calls the hook makes on its collaborators, over any sequence of
    ref-callback calls, cleanups and notifications: the trace is a sequence
    of calls of [fetchNext], of [disconnect]s, and of constructions each
    directly followed by [observe] on the observer just constructed, so
    [observe] is called exactly once per observer and never on an older one;
    the observers are constructed in the order of their numbers; and
    [disconnect] is only ever called on an observer that exists. *)
Theorem trace_discipline (cs : list Call) :
  let w := snd (run cs initial_world) in
  (exists chunks, trace w = concat chunks /\ forallb chunk_ok chunks = true)
  /\ constructed (trace w) = seq 0 (length (observers w))
  /\ Forall (fun o => (o < length (observers w))%nat) (disconnected (trace w)).
Proof.
  intros w.
  destruct (run_trace cs initial_world well_formed_initial)
    as (chunks & Htrace & Hok & Hcon & Hdis & _).
  fold w in Htrace, Hcon, Hdis; simpl in Htrace, Hcon.
  rewrite Nat.sub_0_r in Hcon.
  rewrite Htrace.
  split; [exists chunks; split; [reflexivity|exact Hok]|].
  split; [exact Hcon|exact Hdis].
Qed.

(** ** Beyond the claims: what memoisation keeps and what it renews *)

Lemma same_value_refl (a : number) : same_value a a = true.
Proof.
  destruct a as [|s|q]; simpl;
    [reflexivity|destruct s; reflexivity|apply Qeq_bool_refl].
Qed.

Lemma same_value_sym (a b : number) : same_value a b = true -> same_value b a = true.
Proof.
  destruct a as [|s|p], b as [|t|q]; simpl; try discriminate; try reflexivity.
  - destruct s, t; simpl; congruence.
  - apply Qeq_bool_sym.
Qed.

Lemma same_value_trans (a b c : number) :
  same_value a b = true -> same_value b c = true -> same_value a c = true.
Proof.
  destruct a as [|s|p], b as [|t|q], c as [|u|r]; simpl;
    try discriminate; try reflexivity.
  - destruct s, t, u; simpl; congruence.
  - apply Qeq_bool_trans.
Qed.

(** [===] does not tell apart two numbers [Object.is] identifies. *)
Lemma strict_eq_same_value (x a b : number) :
  same_value a b = true -> strict_eq x a = strict_eq x b.
Proof.
  destruct a as [|s|p], b as [|t|q]; simpl; try discriminate;
    destruct x as [|u|r]; simpl; try reflexivity.
  - destruct s, t, u; simpl; congruence.
  - intros Hpq.
    destruct (Qeq_bool r p) eqn:Hrp, (Qeq_bool r q) eqn:Hrq; try reflexivity.
    + rewrite (Qeq_bool_trans _ _ _ Hrp Hpq) in Hrq; discriminate Hrq.
    + rewrite (Qeq_bool_trans _ _ _ Hrq (Qeq_bool_sym _ _ Hpq)) in Hrp.
      discriminate Hrp.
Qed.

Lemma deps_unchanged_inv (q p : FetchOnScrollProps) :
  fetchOnScroll_deps_unchanged q p = true ->
  fetchNext q = fetchNext p
  /\ fetchMore_or_default q = fetchMore_or_default p
  /\ same_value (itemRefIndex q) (itemRefIndex p) = true
  /\ same_value (fallBackRefIndex q) (fallBackRefIndex p) = true.
Proof.
  unfold fetchOnScroll_deps_unchanged; intros H.
  apply andb_true_iff in H as [H Hfb].
  apply andb_true_iff in H as [H Hitem].
  apply andb_true_iff in H as [Hnext Hmore].
  apply Nat.eqb_eq in Hnext; apply eqb_prop in Hmore.
  repeat split; assumption.
Qed.

Lemma deps_unchanged_intro (q p : FetchOnScrollProps) :
  fetchNext q = fetchNext p ->
  fetchMore_or_default q = fetchMore_or_default p ->
  same_value (itemRefIndex q) (itemRefIndex p) = true ->
  same_value (fallBackRefIndex q) (fallBackRefIndex p) = true ->
  fetchOnScroll_deps_unchanged q p = true.
Proof.
  unfold fetchOnScroll_deps_unchanged; intros -> -> -> ->.
  rewrite Nat.eqb_refl, eqb_reflx; reflexivity.
Qed.

Lemma deps_unchanged_refl (p : FetchOnScrollProps) :
  fetchOnScroll_deps_unchanged p p = true.
Proof. apply deps_unchanged_intro; auto using same_value_refl. Qed.

Lemma deps_unchanged_trans (q p p' : FetchOnScrollProps) :
  fetchOnScroll_deps_unchanged q p = true ->
  fetchOnScroll_deps_unchanged p p' = true ->
  fetchOnScroll_deps_unchanged q p' = true.
Proof.
  intros H1 H2.
  destruct (deps_unchanged_inv _ _ H1) as (Ha & Hb & Hc & Hd).
  destruct (deps_unchanged_inv _ _ H2) as (Ha' & Hb' & Hc' & Hd').
  apply deps_unchanged_intro; try congruence; eauto using same_value_trans.
Qed.

Lemma deps_unchanged_sym (q p : FetchOnScrollProps) :
  fetchOnScroll_deps_unchanged q p = true ->
  fetchOnScroll_deps_unchanged p q = true.
Proof.
  intros H; destruct (deps_unchanged_inv _ _ H) as (Ha & Hb & Hc & Hd).
  apply deps_unchanged_intro; auto using same_value_sym.
Qed.

(** Two scopes with unchanged dependencies give the same handler. *)
Lemma fetchOnScroll_deps (q p : FetchOnScrollProps)
  (entries : list IntersectionObserverEntry) (w : World) :
  fetchOnScroll_deps_unchanged q p = true ->
  fetchOnScroll q entries w = fetchOnScroll p entries w.
Proof.
  intros H; destruct (deps_unchanged_inv _ _ H) as (Hnext & Hmore & Hitem & Hfb).
  destruct entries as [|e rest]; [reflexivity|].
  rewrite !fetchOnScroll_cons, Hnext, Hmore.
  rewrite (strict_eq_same_value (entryId e) _ _ Hitem).
  rewrite (strict_eq_same_value (entryId e) _ _ Hfb).
  assert (strict_eq_nullable (lastItemIndex_current w) (itemRefIndex q)
          = strict_eq_nullable (lastItemIndex_current w) (itemRefIndex p)) as ->.
  { destruct (lastItemIndex_current w) as [v|]; [|reflexivity].
    apply strict_eq_same_value; exact Hitem. }
  reflexivity.
Qed.

Lemma hook_ok_initial : hook_ok initial_hook.
Proof. split; intros h H; discriminate H. Qed.

(** The handler closure a render uses. *)
Lemma render_handler (p : FetchOnScrollProps) (s : HookState) :
  hook_ok s ->
  exists hd,
    fetchOnScroll_memo (snd (useFetchOnScroll p s)) = Some hd
    /\ fetchOnScroll_deps_unchanged (handler_scope hd) p = true
    /\ (handler_id hd <= closures s)%nat
    /\ captured_iOCallback (Returned.itemRef (fst (useFetchOnScroll p s))) = hd
    /\ captured_iOCallback (Returned.fallbackRef (fst (useFetchOnScroll p s))) = hd
    /\ (fetchOnScroll_memo s = Some hd
        \/ (hd = {| handler_id := closures s; handler_scope := p |}
            /\ forall hm, fetchOnScroll_memo s = Some hm ->
                 fetchOnScroll_deps_unchanged (handler_scope hm) p = false)).
Proof.
  intros [Hh Hi Hf].
  unfold useFetchOnScroll, useIntersectionObserver; simpl.
  set (fresh := {| handler_id := closures s; handler_scope := p |}).
  set (hd := useCallback
               (fun kept => fetchOnScroll_deps_unchanged (handler_scope kept) p)
               (fetchOnScroll_memo s) fresh).
  exists hd.
  assert (fetchOnScroll_deps_unchanged (handler_scope hd) p = true
          /\ (handler_id hd <= closures s)%nat
          /\ (fetchOnScroll_memo s = Some hd
              \/ (hd = fresh
                  /\ forall hm, fetchOnScroll_memo s = Some hm ->
                       fetchOnScroll_deps_unchanged (handler_scope hm) p = false)))
    as (Hdeps & Hid & Hcases).
  { subst hd; unfold useCallback.
    destruct (fetchOnScroll_memo s) as [hm|] eqn:Hmemo.
    - destruct (fetchOnScroll_deps_unchanged (handler_scope hm) p) eqn:Hkept.
      + split; [exact Hkept|]; split; [|left; reflexivity].
        pose proof (Hh hm eq_refl); lia.
      + split; [apply deps_unchanged_refl|]; split; [simpl; lia|].
        right; split; [reflexivity|intros ? [= <-]; exact Hkept].
    - split; [apply deps_unchanged_refl|]; split; [simpl; lia|].
      right; split; [reflexivity|intros ? [=]]. }
  assert (forall (memo : option RefCallback) id cell,
            (forall h, memo = Some h ->
               fetchOnScroll_memo s = Some (captured_iOCallback h)
               /\ (callback_id h < closures s)%nat) ->
            captured_iOCallback
              (useCallback
                 (fun kept =>
                    bool_decide (captured_observerRef kept = cell)
                    && Nat.eqb (handler_id (captured_iOCallback kept)) (handler_id hd))
                 memo
                 {| callback_id := id; callback_scope := p;
                    captured_observerRef := cell; captured_iOCallback := hd |})
            = hd) as Hcaptured.
  { intros memo id cell Hmemo.
    match goal with |- captured_iOCallback (useCallback ?u ?m ?c) = _ =>
      destruct (useCallback_cases u m c) as [->|(kept & Hkept & Hsame & ->)]
    end; [reflexivity|].
    apply andb_true_iff in Hsame as [_ Hsame]; apply Nat.eqb_eq in Hsame.
    destruct (Hmemo kept Hkept) as [Hhm _].
    destruct Hcases as [Hold|[Hnew _]]; [congruence|].
    pose proof (Hh _ Hhm) as Hlt.
    rewrite Hsame, Hnew in Hlt; simpl in Hlt; lia. }
  split; [reflexivity|].
  split; [exact Hdeps|].
  split; [exact Hid|].
  split; [apply Hcaptured; exact Hi|].
  split; [apply Hcaptured; exact Hf|exact Hcases].
Qed.

Lemma hook_ok_render (p : FetchOnScrollProps) (s : HookState) :
  hook_ok s -> hook_ok (snd (useFetchOnScroll p s)).
Proof.
  intros Hok.
  destruct (render_handler p s Hok) as (hd & Hmemo & _ & Hid & Hitem & Hfb & _).
  pose proof Hok as [Hh Hi Hf].
  assert (forall (memo : option RefCallback) u fresh,
            (forall h, memo = Some h -> (callback_id h < closures s)%nat) ->
            (callback_id fresh < closures s + 3)%nat ->
            (callback_id (useCallback u memo fresh) < closures s + 3)%nat) as Hids.
  { intros memo u fresh Hm Hfresh.
    destruct (useCallback_cases u memo fresh) as [->|(kept & Hkept & _ & ->)];
      [exact Hfresh|].
    pose proof (Hm kept Hkept); lia. }
  split.
  - intros hm Hhm; rewrite Hmemo in Hhm; injection Hhm as <-.
    simpl; lia.
  - intros h Hh'; rewrite Hmemo.
    simpl in Hh'; injection Hh' as <-.
    split; [f_equal; symmetry; exact Hitem|].
    simpl; apply Hids; [intros h Hm; apply (Hi h Hm)|simpl; lia].
  - intros h Hh'; rewrite Hmemo.
    simpl in Hh'; injection Hh' as <-.
    split; [f_equal; symmetry; exact Hfb|].
    simpl; apply Hids; [intros h Hm; apply (Hf h Hm)|simpl; lia].
Qed.

Lemma hook_ok_renders (ps : list FetchOnScrollProps) : hook_ok (renders ps).
Proof.
  induction ps as [|p ps IH] using rev_ind; [exact hook_ok_initial|].
  rewrite renders_snoc; apply hook_ok_render; exact IH.
Qed.

(** X10: memoisation never leaves a stale handler behind: after any renders,
    the two ref callbacks a render returns close over one and the same
    handler, and that handler behaves on every batch and in every world as
    the handler of the current props (their [fetchNext], [fetchMore],
    [itemRefIndex] and [fallBackRefIndex]). *)
Theorem returned_handler_is_current (ps : list FetchOnScrollProps)
  (p : FetchOnScrollProps) :
  let returned := rendered ps p in
  captured_iOCallback (Returned.itemRef returned)
  = captured_iOCallback (Returned.fallbackRef returned)
  /\ forall entries w,
       fetchOnScroll (handler_scope (captured_iOCallback (Returned.itemRef returned)))
         entries w
       = fetchOnScroll p entries w.
Proof.
  intros returned; subst returned; unfold rendered.
  destruct (render_handler p (renders ps) (hook_ok_renders ps))
    as (hd & _ & Hdeps & _ & -> & -> & _).
  split; [reflexivity|].
  intros entries w; apply fetchOnScroll_deps; exact Hdeps.
Qed.

(** Rendering again on top of kept closures. *)
Lemma render_again (p' : FetchOnScrollProps) (s : HookState)
  (hd : Handler) (h : RefCallback) (memo : option RefCallback)
  (id : nat) (cell : RefObject) :
  fetchOnScroll_memo s = Some hd ->
  (handler_id hd < closures s)%nat ->
  memo = Some h ->
  captured_iOCallback h = hd ->
  (callback_id h < closures s)%nat ->
  (closures s < id)%nat ->
  let handler :=
    useCallback (fun kept => fetchOnScroll_deps_unchanged (handler_scope kept) p')
      (fetchOnScroll_memo s) {| handler_id := closures s; handler_scope := p' |} in
  let returned := useIntersectionObserver p' id memo cell handler in
  (returned = h <->
   fetchOnScroll_deps_unchanged (handler_scope hd) p' = true
   /\ captured_observerRef h = cell)
  /\ (returned <> h -> callback_scope returned = p').
Proof.
  intros Hmemo Hid -> Hcaptured Hcb Hfresh handler returned.
  subst returned handler; rewrite Hmemo.
  unfold useIntersectionObserver, useCallback; rewrite Hcaptured.
  destruct (fetchOnScroll_deps_unchanged (handler_scope hd) p') eqn:Hdeps.
  - rewrite Nat.eqb_refl, andb_true_r.
    destruct (bool_decide (captured_observerRef h = cell)) eqn:Hcell.
    + apply bool_decide_eq_true in Hcell.
      split; [split; [intros _; split; [reflexivity|exact Hcell]|reflexivity]|].
      intros Hne; contradiction Hne; reflexivity.
    + apply bool_decide_eq_false in Hcell.
      split; [|reflexivity].
      split; [intros <-; simpl in Hcb; lia|intros [_ Hc]; contradiction].
  - simpl handler_id.
    assert (Nat.eqb (handler_id hd) (closures s) = false) as ->
      by (apply Nat.eqb_neq; lia).
    rewrite andb_false_r.
    split; [|reflexivity].
    split; [intros <-; simpl in Hcb; lia|intros [Hd _]; discriminate Hd].
Qed.

(** X11: between two consecutive renders the ref callbacks are kept or
    renewed exactly by their dependency lists: the returned [fallbackRef] is
    the closure of the previous render exactly when [fetchNext], [fetchMore],
    [itemRefIndex] and [fallBackRefIndex] are unchanged (as [Object.is]
    compares them), the returned [itemRef] exactly when moreover the aliasing
    of [ItemObserver] is the same; [threshold] and [rootMargin] play no part.
    A renewed ref callback closes over the props of the new render. *)
Theorem ref_callbacks_renewed_exactly_when (ps : list FetchOnScrollProps)
  (p p' : FetchOnScrollProps) :
  let before := rendered ps p in
  let after := rendered (ps ++ [p]) p' in
  (Returned.fallbackRef after = Returned.fallbackRef before <->
   fetchOnScroll_deps_unchanged p p' = true)
  /\ (Returned.itemRef after = Returned.itemRef before <->
      fetchOnScroll_deps_unchanged p p' = true /\ ItemObserver p' = ItemObserver p)
  /\ (Returned.fallbackRef after <> Returned.fallbackRef before ->
      callback_scope (Returned.fallbackRef after) = p')
  /\ (Returned.itemRef after <> Returned.itemRef before ->
      callback_scope (Returned.itemRef after) = p').
Proof.
  intros before after; subst before after; unfold rendered.
  rewrite renders_snoc.
  set (s0 := renders ps).
  pose proof (hook_ok_renders ps) as Hok0; fold s0 in Hok0.
  destruct (render_handler p s0 Hok0) as (hd & Hmemo & Hdeps & _ & Hitem & Hfb & _).
  destruct (returned_cells p s0) as [Hcell_item Hcell_fb].
  pose proof (hook_ok_render p s0 Hok0) as [Hh Hi Hf].
  set (s1 := snd (useFetchOnScroll p s0)) in *.
  set (h1 := Returned.itemRef (fst (useFetchOnScroll p s0))) in *.
  set (f1 := Returned.fallbackRef (fst (useFetchOnScroll p s0))) in *.
  assert (itemRef_memo s1 = Some h1) as Hm_item by reflexivity.
  assert (fallbackRef_memo s1 = Some f1) as Hm_fb by reflexivity.
  assert (fetchOnScroll_deps_unchanged (handler_scope hd) p' = true
          <-> fetchOnScroll_deps_unchanged p p' = true) as Hiff.
  { split; intros H.
    - exact (deps_unchanged_trans _ _ _ (deps_unchanged_sym _ _ Hdeps) H).
    - exact (deps_unchanged_trans _ _ _ Hdeps H). }
  destruct (render_again p' s1 hd h1 (itemRef_memo s1) (closures s1 + 1)
              (ItemObserver p') Hmemo (Hh hd Hmemo) Hm_item Hitem
              (proj2 (Hi h1 Hm_item)) ltac:(lia)) as [Hitem_iff Hitem_new].
  destruct (render_again p' s1 hd f1 (fallbackRef_memo s1) (closures s1 + 2)
              ref_fallback Hmemo (Hh hd Hmemo) Hm_fb Hfb
              (proj2 (Hf f1 Hm_fb)) ltac:(lia)) as [Hfb_iff Hfb_new].
  split; [|split; [|split; [exact Hfb_new|exact Hitem_new]]].
  - etransitivity; [exact Hfb_iff|].
    rewrite Hiff; split; [intros [H _]; exact H|intros H; split; [exact H|exact Hcell_fb]].
  - etransitivity; [exact Hitem_iff|].
    rewrite Hiff, Hcell_item; split; intros [H1 H2]; split; congruence.
Qed.

(** ** Beyond the claims: the two slots attached one after the other *)

(** X12: when a render's [itemRef] is called with an element [a] and then
    its [fallbackRef] with an element [b], two observers are constructed and
    the second watches [b]; the first one still watches [a] when the two
    slots have cells of their own, and has been disconnected, watching
    nothing, when [ItemObserver] is aliased to the fallback cell. *)
Theorem slots_attached_in_turn (ps : list FetchOnScrollProps)
  (p : FetchOnScrollProps) (cs : list Call) (a b : Element) :
  let returned := rendered ps p in
  let w := snd (run cs initial_world) in
  let n := length (observers w) in
  let w' := snd (run [CallRef (Returned.itemRef returned) (Some a);
                      CallRef (Returned.fallbackRef returned) (Some b)] w) in
  length (observers w') = (n + 2)%nat
  /\ io_targets <$> (observers w' !! n)
     = Some (match ItemObserver p with ref_Item => [a] | ref_fallback => [] end)
  /\ io_targets <$> (observers w' !! (n + 1)%nat) = Some [b]
  /\ current ref_fallback w' = Some (n + 1)%nat
  /\ (ItemObserver p = ref_Item -> current ref_Item w' = Some n).
Proof.
  intros returned w n w'; subst w'.
  assert (snd (run [CallRef (Returned.itemRef returned) (Some a);
                    CallRef (Returned.fallbackRef returned) (Some b)] w)
          = snd (ref_callback (Returned.fallbackRef returned) (Some b)
                   (snd (ref_callback (Returned.itemRef returned) (Some a) w))))
    as -> by (rewrite !run_cons, !call_CallRef; reflexivity).
  destruct (returned_cells p (renders ps)) as [Hcell_item Hcell_fb].
  fold (rendered ps p) in Hcell_item, Hcell_fb; fold returned in Hcell_item, Hcell_fb.
  set (w1 := snd (ref_callback (Returned.itemRef returned) (Some a) w)).
  assert (length (observers w1) = (n + 1)%nat
          /\ observers w1 !! n
             = Some {| io_callback := captured_iOCallback (Returned.itemRef returned);
                       io_threshold := threshold (callback_scope (Returned.itemRef returned));
                       io_rootMargin := rootMargin (callback_scope (Returned.itemRef returned));
                       io_targets := [a] |}
          /\ current (ItemObserver p) w1 = Some n) as (Hlen1 & Hlook1 & Hcur1).
  { subst w1; rewrite ref_callback_Some, Hcell_item; simpl.
    rewrite length_app, length_released; simpl.
    split; [reflexivity|]; split; [|destruct (ItemObserver p); reflexivity].
    rewrite lookup_app_r by (rewrite length_released; reflexivity).
    rewrite length_released; fold n; rewrite Nat.sub_diag; reflexivity. }
  rewrite ref_callback_Some, Hcell_fb; simpl.
  rewrite length_app, length_released, Hlen1; simpl.
  split; [lia|].
  split.
  { rewrite lookup_app_l by (rewrite length_released, Hlen1; lia).
    destruct (ItemObserver p) eqn:Hcell; simpl.
    - change (fallbackObserver_current w1) with (current ref_fallback w1).
      assert (current ref_fallback w1 = current ref_fallback w) as ->
        by (subst w1; rewrite ref_callback_Some, Hcell_item; reflexivity).
      destruct (current ref_fallback w) as [o|] eqn:Hcur; simpl;
        [|rewrite Hlook1; reflexivity].
      assert (well_formed w) as Hwf by (apply well_formed_run, well_formed_initial).
      pose proof (wf_current w Hwf ref_fallback o Hcur) as Hlt.
      rewrite list_lookup_alter_ne by (fold n in Hlt; lia).
      rewrite Hlook1; reflexivity.
    - change (fallbackObserver_current w1) with (current ref_fallback w1).
      rewrite Hcur1; simpl.
      rewrite list_lookup_alter_eq, Hlook1; reflexivity. }
  split.
  { rewrite lookup_app_r by (rewrite length_released, Hlen1; lia).
    rewrite length_released, Hlen1, Nat.sub_diag; reflexivity. }
  split; [reflexivity|].
  intros Hitem; rewrite Hitem in Hcur1; exact Hcur1.
Qed.

(** ** Beyond the claims: identifiers written as decimal numerals *)







(** ** Beyond the claims: when the two slots share a cell *)

(** X14: after any renders, the two ref callbacks a render returns act on one
    and the same cell exactly when [triggerPoint] is "100%" (given, or left to
    its default) or [triggerIndex] strictly equals [numberOfItems - 1]; the
    third disjunct of the test, "neither given", never decides, because an
    absent [triggerPoint] has become "100%" before the test. *)
Theorem slots_share_cell_iff (ps : list FetchOnScrollProps)
  (p : FetchOnScrollProps) :
  let returned := rendered ps p in
  (captured_observerRef (Returned.itemRef returned)
   = captured_observerRef (Returned.fallbackRef returned)
   <-> triggerPoint_or_default p = TP100 \/ triggerIndex_is_fallback p = true)
  /\ (triggerPoint p = None ->
      captured_observerRef (Returned.itemRef returned) = ref_fallback)
  /\ negb (truthy_string (TriggerPoint_literal (triggerPoint_or_default p)))
     = false.
Proof.
  intros returned; subst returned; unfold rendered.
  destruct (returned_cells p (renders ps)) as [-> ->].
  split; [apply ItemObserver_fallback_iff|].
  split.
  - intros Hnone; apply ItemObserver_fallback_iff; left.
    unfold triggerPoint_or_default; rewrite Hnone; reflexivity.
  - destruct (triggerPoint_or_default p); reflexivity.
Qed.
